(** * ab_gateway discovery pipeline

    A shallow embedding of [custom_components/ab_gateway/discovery.py]:
    the MQTT message handler, the normalisation of the two device wire
    shapes, the "adv" queue, and the processing loop of
    [ABGatewayScanner] with its two per-address dictionaries.

    Python values are a small inductive type, Python exceptions are an
    error monad, and the scanner object is an explicit state record that
    the handlers thread through. *)

From Stdlib Require Import ZArith NArith String Ascii List Lia.
From Stdlib Require Import Init.Byte.
From stdpp Require Import base option list gmap strings pretty.

Local Open Scope Z_scope.

#[local] Set Warnings "-register-all".

(** ** Python values and exceptions *)

(** The values the decoders can hand to the pipeline.  [str] values are
    ASCII text; a dict has string keys and keeps insertion order. *)
Inductive pyval : Type :=
| PyNone
| PyBool (b : bool)
| PyInt (z : Z)
| PyStr (s : string)
| PyBytes (b : list byte)
| PyList (l : list pyval)
| PyDict (d : list (string * pyval)).

(** The exception classes that occur in the module.  [ExtraData] is
    [msgpack.exceptions.ExtraData], [JSONDecodeError] is
    [json.JSONDecodeError], [TimeoutError] is [asyncio.TimeoutError], and
    [ParseError] is the failure of the advertisement parser. *)
Inductive exn : Type :=
| ExtraData
| UnicodeDecodeError
| JSONDecodeError
| ValueError
| TypeError
| IndexError
| KeyError
| AttributeError
| NameError
| AssertionError
| TimeoutError
| ParseError
| OtherError (name : string).

(** [except ValueError] also catches the three subclasses. *)
Definition isinstance_ValueError (e : exn) : bool :=
  match e with
  | ValueError | ExtraData | UnicodeDecodeError | JSONDecodeError => true
  | _ => false
  end.

Definition isinstance_ExtraData (e : exn) : bool :=
  match e with ExtraData => true | _ => false end.

Definition isinstance_UnicodeDecodeError (e : exn) : bool :=
  match e with UnicodeDecodeError => true | _ => false end.

Definition isinstance_TimeoutError (e : exn) : bool :=
  match e with TimeoutError => true | _ => false end.

(** The outcome of a Python expression: a value, or a raised exception. *)
Inductive result (A : Type) : Type :=
| Ok (a : A)
| Raise (e : exn).
Arguments Ok {A} a.
Arguments Raise {A} e.

#[global] Instance result_ret : MRet result := fun _ a => Ok a.
#[global] Instance result_bind : MBind result := fun _ _ f r =>
  match r with
  | Ok a => f a
  | Raise e => Raise e
  end.

(** ** Bytes, hex and case *)

Definition hexdigit (n : N) : ascii :=
  match n with
  | 0 => "0" | 1 => "1" | 2 => "2" | 3 => "3" | 4 => "4" | 5 => "5"
  | 6 => "6" | 7 => "7" | 8 => "8" | 9 => "9" | 10 => "a" | 11 => "b"
  | 12 => "c" | 13 => "d" | 14 => "e" | _ => "f"
  end%N%char.

(** [bytes.hex()]: two lowercase hex digits per byte. *)
Fixpoint bytes_hex (b : list byte) : string :=
  match b with
  | [] => EmptyString
  | x :: b' =>
      let n := Byte.to_N x in
      String (hexdigit (n / 16)) (String (hexdigit (n mod 16)) (bytes_hex b'))
  end.

Definition hexval (c : ascii) : option N :=
  let n := N_of_ascii c in
  if ((48 <=? n) && (n <=? 57))%N then Some (n - 48)%N
  else if ((97 <=? n) && (n <=? 102))%N then Some (n - 87)%N
  else if ((65 <=? n) && (n <=? 70))%N then Some (n - 55)%N
  else None.

(** ASCII whitespace, as [bytes.fromhex] skips it between bytes. *)
Definition is_space (c : ascii) : bool :=
  let n := N_of_ascii c in
  ((n =? 32) || ((9 <=? n) && (n <=? 13)))%N.

Definition byte_of_N (n : N) : byte := byte_of_ascii (ascii_of_N n).

(** [bytes.fromhex(s)]: whitespace is skipped before each byte, every
    byte is exactly two hex digits, anything else is a [ValueError]. *)
Fixpoint bytes_fromhex (s : string) : result (list byte) :=
  match s with
  | EmptyString => Ok []
  | String c s' =>
      if is_space c then bytes_fromhex s'
      else
        match hexval c, s' with
        | Some h, String d s'' =>
            match hexval d with
            | Some l =>
                match bytes_fromhex s'' with
                | Ok b => Ok (byte_of_N (16 * h + l) :: b)
                | Raise e => Raise e
                end
            | None => Raise ValueError
            end
        | _, _ => Raise ValueError
        end
  end.

Definition lower_char (c : ascii) : ascii :=
  let n := N_of_ascii c in
  if ((65 <=? n) && (n <=? 90))%N then ascii_of_N (n + 32) else c.

(** [str.lower()] on ASCII text. *)
Fixpoint str_lower (s : string) : string :=
  match s with
  | EmptyString => EmptyString
  | String c s' => String (lower_char c) (str_lower s')
  end.

(** [bytes.lower()]. *)
Definition bytes_lower (b : list byte) : list byte :=
  map (fun x => byte_of_ascii (lower_char (ascii_of_byte x))) b.


Definition is_hex_char (c : ascii) : bool :=
  match hexval c with Some _ => true | None => false end.

Fixpoint string_forallb (p : ascii -> bool) (s : string) : bool :=
  match s with
  | EmptyString => true
  | String c s' => p c && string_forallb p s'
  end.

Definition is_hex (s : string) : bool := string_forallb is_hex_char s.

(** ** Python object operations used by the module *)

Definition dict_lookup (k : string) (d : list (string * pyval)) : option pyval :=
  snd <$> find (fun kv => String.eqb (fst kv) k) d.

(** [obj.get(k, dflt)]: only a dict has the method. *)
Definition py_get (obj : pyval) (k : string) (dflt : pyval) : result pyval :=
  match obj with
  | PyDict d => Ok (default dflt (dict_lookup k d))
  | _ => Raise AttributeError
  end.

Definition py_int_of_byte (x : byte) : pyval := PyInt (Z.of_N (Byte.to_N x)).

Fixpoint str_chars (s : string) : list pyval :=
  match s with
  | EmptyString => []
  | String c s' => PyStr (String c EmptyString) :: str_chars s'
  end.

(** [obj[i]] for a constant index [i >= 0].  A dict with string keys has
    no integer key. *)
Definition py_getitem (obj : pyval) (i : nat) : result pyval :=
  match obj with
  | PyList l => match l !! i with Some x => Ok x | None => Raise IndexError end
  | PyBytes b =>
      match b !! i with Some x => Ok (py_int_of_byte x) | None => Raise IndexError end
  | PyStr s =>
      match str_chars s !! i with Some x => Ok x | None => Raise IndexError end
  | PyDict _ => Raise KeyError
  | PyNone | PyBool _ | PyInt _ => Raise TypeError
  end.

(** [obj[i] = x]: the updated object.  Only a list supports it here (a
    dict is never reached: reading the same integer key has raised). *)
Definition py_setitem (obj : pyval) (i : nat) (x : pyval) : result pyval :=
  match obj with
  | PyList l =>
      if decide (i < length l)%nat then Ok (PyList (<[i:=x]> l)) else Raise IndexError
  | PyDict _ => Raise KeyError
  | _ => Raise TypeError
  end.

(** [obj.lower()]: a method of [str] and of [bytes]. *)
Definition py_lower (obj : pyval) : result pyval :=
  match obj with
  | PyStr s => Ok (PyStr (str_lower s))
  | PyBytes b => Ok (PyBytes (bytes_lower b))
  | _ => Raise AttributeError
  end.

(** [bytes.fromhex(obj)]. *)
Definition py_bytes_fromhex (obj : pyval) : result pyval :=
  match obj with
  | PyStr s => b ← bytes_fromhex s; Ok (PyBytes b)
  | _ => Raise TypeError
  end.

(** The elements a [for] loop over [obj] visits. *)
Definition py_iter (obj : pyval) : result (list pyval) :=
  match obj with
  | PyList l => Ok l
  | PyStr s => Ok (str_chars s)
  | PyBytes b => Ok (map py_int_of_byte b)
  | PyDict d => Ok (map (fun kv => PyStr (fst kv)) d)
  | PyNone | PyBool _ | PyInt _ => Raise TypeError
  end.

(** ** Constants of [const.py] *)

(** Modelled from the spec: [const.py] is not part of the sources; the
    list form has "index 1 as MAC", "index 2 as RSSI" and "index 3 as a
    hex string decoded into bytes for the payload". *)
Definition INDEX_MAC : nat := 1.
Definition INDEX_RSSI : nat := 2.
Definition INDEX_ADV : nat := 3.

(** ** Records of the host and of the parser *)

(** [bleak.backends.device.BLEDevice], the fields the module reads. *)
Record BLEDevice := {
  address : string;
  name : option string;
}.

(** [bleak.backends.scanner.AdvertisementData]. *)
Record AdvertisementData := {
  local_name : option string;
  rssi : Z;
  manufacturer_data : list (Z * list byte);
  service_data : list (string * list byte);
  service_uuids : list string;
}.

(** [BluetoothServiceInfoBleak], as built in [async_on_advertisement]. *)
Record BluetoothServiceInfoBleak := {
  info_name : string;
  info_address : string;
  info_rssi : Z;
  info_manufacturer_data : list (Z * list byte);
  info_service_data : list (string * list byte);
  info_service_uuids : list string;
  info_source : string;
  info_device : BLEDevice;
  info_advertisement : AdvertisementData;
  info_connectable : bool;
  info_time : Z;
}.

(** The dict put on the queue: [{"gateway_id": ..., "device": ...}]. *)
Record QueueItem := {
  gateway_id : pyval;
  device : pyval;
}.

Inductive log_level := DEBUG | WARNING.

Record log_record := {
  level : log_level;
  message : string;
}.

(** What the module takes from outside the file: [msgpack.unpackb] and
    [json.loads], the advertisement parser [ble_parser.parse_data]
    (which returns a device and its advertisement data, or raises), the
    formatting of a value in an f-string, and [DOMAIN] of [const.py]. *)
Class Host := {
  DOMAIN : string;
  unpackb : list byte -> result pyval;
  json_loads : list byte -> result pyval;
  parse_data : pyval -> result (BLEDevice * AdvertisementData);
  format_value : pyval -> string;
}.

(** ** The scanner object *)

(** [ABGatewayScanner]: the shared "adv" queue, the two dictionaries,
    and, as a trace, the calls of [_new_info_callback] and the log
    records, oldest first.  A monotonic clock reading is an integer: it
    is stored and never computed with. *)
Record scanner := {
  source : string;
  queue : list QueueItem;
  discovered_device_advertisement_datas : gmap string (BLEDevice * AdvertisementData);
  discovered_device_timestamps : gmap string Z;
  dispatched : list BluetoothServiceInfoBleak;
  log : list log_record;
}.

Definition set_queue (q : list QueueItem) (st : scanner) : scanner :=
  {| source := source st; queue := q;
     discovered_device_advertisement_datas := discovered_device_advertisement_datas st;
     discovered_device_timestamps := discovered_device_timestamps st;
     dispatched := dispatched st; log := log st |}.

Definition set_advertisement_datas
    (m : gmap string (BLEDevice * AdvertisementData)) (st : scanner) : scanner :=
  {| source := source st; queue := queue st;
     discovered_device_advertisement_datas := m;
     discovered_device_timestamps := discovered_device_timestamps st;
     dispatched := dispatched st; log := log st |}.

Definition set_timestamps (m : gmap string Z) (st : scanner) : scanner :=
  {| source := source st; queue := queue st;
     discovered_device_advertisement_datas := discovered_device_advertisement_datas st;
     discovered_device_timestamps := m;
     dispatched := dispatched st; log := log st |}.

Definition set_dispatched (d : list BluetoothServiceInfoBleak) (st : scanner) : scanner :=
  {| source := source st; queue := queue st;
     discovered_device_advertisement_datas := discovered_device_advertisement_datas st;
     discovered_device_timestamps := discovered_device_timestamps st;
     dispatched := d; log := log st |}.

Definition set_log (l : list log_record) (st : scanner) : scanner :=
  {| source := source st; queue := queue st;
     discovered_device_advertisement_datas := discovered_device_advertisement_datas st;
     discovered_device_timestamps := discovered_device_timestamps st;
     dispatched := dispatched st; log := l |}.

(** A handler: it reads and updates the scanner, and returns or raises. *)
Definition handler (A : Type) : Type := scanner -> result A * scanner.

Definition hret {A} (a : A) : handler A := fun st => (Ok a, st).
Definition hraise {A} (e : exn) : handler A := fun st => (Raise e, st).
Definition hbind {A B} (c : handler A) (k : A -> handler B) : handler B :=
  fun st =>
    match c st with
    | (Ok a, st') => k a st'
    | (Raise e, st') => (Raise e, st')
    end.
Definition hlift {A} (r : result A) : handler A := fun st => (r, st).

(** [try: body except ...: on_exn]: [on_exn e] is the first matching
    clause run on the exception, or re-raises. *)
Definition try_except {A} (body : handler A) (on_exn : exn -> handler A) : handler A :=
  fun st =>
    match body st with
    | (Ok a, st') => (Ok a, st')
    | (Raise e, st') => on_exn e st'
    end.

Notation "'do' x <- c ; k" := (hbind c (fun x => k))
  (at level 10, x name, c at level 100, k at level 200,
   format "'[v' 'do'  x  <-  c ; '/' k ']'").
Notation "'run' c ; k" := (hbind c (fun _ => k))
  (at level 10, c at level 100, k at level 200,
   format "'[v' 'run'  c ; '/' k ']'").

(** [queues.put("adv", item)].  Modelled from the spec: the queue
    class is not part of the sources; "put(item) never blocks the
    producer", and the item goes to the end of the single "adv" queue. *)
Definition queues_put (item : QueueItem) : handler unit :=
  fun st => (Ok tt, set_queue (queue st ++ [item]) st).

(** [_LOGGER.debug(...)] and [_LOGGER.warning(...)]. *)
Definition logger (lv : log_level) (msg : string) : handler unit :=
  fun st => (Ok tt, set_log (log st ++ [{| level := lv; message := msg |}]) st).

(** ** Normalisation of the two wire shapes *)

Definition byte_at (data : list byte) (i : nat) : result Z :=
  match data !! i with
  | Some x => Ok (Z.of_N (Byte.to_N x))
  | None => Raise IndexError
  end.

(** [data[lo:hi]] for constant bounds [0 <= lo <= hi]. *)
Definition bytes_slice (data : list byte) (lo hi : nat) : list byte :=
  take (hi - lo) (drop lo data).

(** [convert_dev_to_dict], nested in [async_run]. *)
Definition convert_dev_to_dict (data : list byte) : result pyval :=
  let adpayload_start := 8%nat in
  let rssi_index := 7%nat in
  adtype ← byte_at data 0;
  let mac := bytes_hex (bytes_slice data 1 7) in
  let adpayload := drop adpayload_start data in
  v ← byte_at data rssi_index;
  let rssi := v - 256 in
  let converted := [PyInt adtype; PyStr mac; PyInt rssi; PyBytes adpayload] in
  Ok (PyList converted).

(** The [else] branch of the loop of [async_process_discovery_data]:
    the entry after its two assignments. *)
Definition normalize_list_entry (dev : pyval) : result pyval :=
  mac ← py_getitem dev INDEX_MAC;
  low ← py_lower mac;
  dev1 ← py_setitem dev INDEX_MAC low;
  hexs ← py_getitem dev1 3;
  adv ← py_bytes_fromhex hexs;
  py_setitem dev1 INDEX_ADV adv.

(** The device record put on the queue for one entry of a report. *)
Definition normalize (dev : pyval) : result pyval :=
  match dev with
  | PyBytes b => convert_dev_to_dict b
  | _ => normalize_list_entry dev
  end.



(** A byte read as a signed byte (two's complement): the data model of
    the specification gives the binary tuple an "rssi: signed byte". *)
Definition signed_byte (v : Z) : Z := if v <? 128 then v else v - 256.

(** The binary tuple [data] and the list entry
    [[adtype, mac, rssi, adv]] carry the same logical values: the same
    adType, a MAC string of hex digits (of either case) that denotes the
    six MAC bytes, the RSSI that the RSSI byte stands for as a signed
    byte, and a hex string that denotes the payload bytes. *)
Definition same_logical_values (data : list byte)
    (adtype : Z) (mac : string) (rssi : Z) (adv : string) : Prop :=
  byte_at data 0 = Ok adtype /\
  (is_hex mac = true /\ bytes_fromhex mac = Ok (bytes_slice data 1 7) /\
   length (bytes_slice data 1 7) = 6%nat) /\
  (exists v, byte_at data 7 = Ok v /\ rssi = signed_byte v) /\
  bytes_fromhex adv = Ok (drop 8 data).



(** An optional string that is given and not empty, and one that is
    [None] or empty: what Python's [or] takes as true and as false. *)
Definition present (x : option string) (s : string) : Prop :=
  x = Some s /\ s <> EmptyString.

Definition absent (x : option string) : Prop :=
  x = None \/ x = Some EmptyString.

Section Pipeline.
Context `{Host}.

(** *** The message path *)

Fixpoint put_devices (gateway : pyval) (devs : list pyval) : handler unit :=
  match devs with
  | [] => hret tt
  | dev :: devs' =>
      do d <- hlift (normalize dev);
      run queues_put {| gateway_id := gateway; device := d |};
      put_devices gateway devs'
  end.

(** [async_process_discovery_data], nested in [async_run]. *)
Definition async_process_discovery_data (data : pyval) : handler bool :=
  do gateway <- hlift (py_get data "mac" PyNone);
  do devices <- hlift (py_get data "devices" (PyList []));
  do devs <- hlift (py_iter devices);
  run put_devices gateway devs;
  hret true.

(** [async_message_received], nested in [async_run].  The clauses of
    the [try] are tried in order on an exception of its body; an
    exception raised inside a clause leaves the statement.  The last
    clause reads the unbound name [payload] before it can log. *)
Definition async_message_received (payload : list byte) : handler unit :=
  try_except
    (do data <- hlift (unpackb payload);
     run async_process_discovery_data data;
     hret tt)
    (fun error =>
       if isinstance_ExtraData error then
         run logger DEBUG "Msgpack cannot decode data: %s, try json instead";
         do data <- hlift (json_loads payload);
         do mac <- hlift (py_get data "mac" PyNone);
         run logger DEBUG "JSON data: %s";
         run async_process_discovery_data data;
         hret tt
       else if isinstance_UnicodeDecodeError error then
         run logger DEBUG "Cannot decode data: %s";
         hret tt
       else if isinstance_ValueError error then
         hraise NameError
       else hraise error).

(** *** The processing path *)

(** [x or y] for an optional string [x]: [None] and the empty string
    are false. *)
Definition or_else (x : option string) (y : string) : string :=
  match x with
  | Some s => if String.eqb s "" then y else s
  | None => y
  end.

Definition service_info (data : QueueItem) (dev : BLEDevice)
    (advertisement_data : AdvertisementData) (now : Z) : BluetoothServiceInfoBleak :=
  {| info_name := or_else (local_name advertisement_data) (or_else (name dev) (address dev));
     info_address := address dev;
     info_rssi := rssi advertisement_data;
     info_manufacturer_data := manufacturer_data advertisement_data;
     info_service_data := service_data advertisement_data;
     info_service_uuids := service_uuids advertisement_data;
     info_source := String.append DOMAIN (String.append "_" (format_value (gateway_id data)));
     info_device := dev;
     info_advertisement := advertisement_data;
     info_connectable := true;
     info_time := now |}.

(** [self._new_info_callback(info)]: recorded in the trace. *)
Definition new_info_callback (info : BluetoothServiceInfoBleak) : handler unit :=
  fun st => (Ok tt, set_dispatched (dispatched st ++ [info]) st).

(** [self._discovered_device_advertisement_datas[device.address] = (device, advertisement_data)]. *)
Definition store_advertisement_data (dev : BLEDevice)
    (advertisement_data : AdvertisementData) : handler unit :=
  fun st =>
    (Ok tt,
     set_advertisement_datas
       (<[address dev := (dev, advertisement_data)]>
          (discovered_device_advertisement_datas st)) st).

(** [self._discovered_device_timestamps[device.address] = now]. *)
Definition store_timestamp (dev : BLEDevice) (now : Z) : handler unit :=
  fun st =>
    (Ok tt,
     set_timestamps (<[address dev := now]> (discovered_device_timestamps st)) st).

(** [ABGatewayScanner.async_on_advertisement]; [now] is the reading of
    [time.monotonic()]. *)
Definition async_on_advertisement (data : QueueItem) (now : Z) : handler unit :=
  do parsed <- hlift (parse_data (device data));
  let '(dev, advertisement_data) := parsed in
  run store_advertisement_data dev advertisement_data;
  run store_timestamp dev now;
  new_info_callback (service_info data dev advertisement_data now).

(** [asyncio.wait_for(queue.get(), 1)].  Modelled from the spec: the
    queue class is not part of the sources; the queue is first in,
    first out, and [get] "suspends the consumer until an item is
    available or a timeout elapses", which raises
    [asyncio.TimeoutError]. *)
Definition queue_get : handler QueueItem :=
  fun st =>
    match queue st with
    | [] => (Raise TimeoutError, st)
    | data :: rest => (Ok data, set_queue rest st)
    end.

(** One turn of the [while True] loop of [async_run]. *)
Definition loop_iteration (now : Z) : handler unit :=
  try_except
    (do data <- queue_get;
     async_on_advertisement data now)
    (fun error => if isinstance_TimeoutError error then hret tt else hraise error).

(** *** The scanner over time *)

(** The loop task is running, or it has ended with an exception. *)
Inductive task_state :=
| Running
| Ended (e : exn).

Record system := {
  scanner_of : scanner;
  subscribed : bool;
  task : task_state;
}.

(** What happens to the scanner: the transport delivers a message, the
    loop task takes a turn (with the clock reading it would see), or
    [async_stop] runs. *)
Inductive input :=
| Message (payload : list byte)
| Tick (now : Z)
| Stop.

Definition step (s : system) (i : input) : system :=
  match i with
  | Message payload =>
      if subscribed s then
        {| scanner_of := snd (async_message_received payload (scanner_of s));
           subscribed := true; task := task s |}
      else s
  | Tick now =>
      match task s with
      | Ended _ => s
      | Running =>
          match loop_iteration now (scanner_of s) with
          | (Ok _, st) => {| scanner_of := st; subscribed := subscribed s; task := Running |}
          | (Raise e, st) => {| scanner_of := st; subscribed := subscribed s; task := Ended e |}
          end
      end
  | Stop => {| scanner_of := scanner_of s; subscribed := false; task := task s |}
  end.

Definition run_inputs (s : system) (inputs : list input) : system :=
  fold_left step inputs s.

(** The scanner registered with the host by [async_start]. *)
Record registration := {
  reg_source : string;
  reg_connectable : bool;
}.

(** [ABGatewayScanner.__init__] on the shared queue. *)
Definition scanner_init (scanner_id : string) (queues : list QueueItem) : scanner :=
  {| source := scanner_id; queue := queues;
     discovered_device_advertisement_datas := ∅;
     discovered_device_timestamps := ∅;
     dispatched := []; log := [] |}.

(** [async_start]: the scanner is registered with [connectable=False]
    and its loop task is created; [async_run] subscribes first. *)
Definition async_start (unique_id : option string) (queues : list QueueItem)
    : result (registration * system) :=
  match unique_id with
  | None => Raise AssertionError
  | Some uid =>
      let st := scanner_init uid queues in
      let st := set_log [{| level := DEBUG; message := "%s: Connecting scanner" |}] st in
      Ok ({| reg_source := uid; reg_connectable := false |},
          {| scanner_of := st; subscribed := true; task := Running |})
  end.

End Pipeline.

(** ** A reference host

    A concrete [Host] to run the pipeline on: decoders for the fragments
    of MessagePack and of JSON that gateways send (ASCII text, integers
    of one byte, no floats, no escapes), and a parser of the
    length-type-value structures of an advertisement payload.  What lies
    outside the fragment is reported as [OtherError]. *)
Module Sample.

Fixpoint ascii_text (b : list byte) : option string :=
  match b with
  | [] => Some EmptyString
  | x :: b' =>
      if (Byte.to_N x <? 128)%N
      then String (ascii_of_byte x) <$> ascii_text b'
      else None
  end.

Definition split_exact (n : nat) (b : list byte) : result (list byte * list byte) :=
  if decide (n ≤ length b)%nat then Ok (take n b, drop n b)
  else Raise (OtherError "OutOfData").

Definition unpack_str (n : nat) (b : list byte) : result (pyval * list byte) :=
  '(raw, rest) ← split_exact n b;
  match ascii_text raw with
  | Some s => Ok (PyStr s, rest)
  | None => Raise (OtherError "text outside ASCII")
  end.

Definition unpack_bin (n : nat) (b : list byte) : result (pyval * list byte) :=
  '(raw, rest) ← split_exact n b;
  Ok (PyBytes raw, rest).

Definition dict_set (k : string) (v : pyval) (d : list (string * pyval))
    : list (string * pyval) :=
  if existsb (fun kv => String.eqb (fst kv) k) d
  then map (fun kv => if String.eqb (fst kv) k then (k, v) else kv) d
  else d ++ [(k, v)].

(** One MessagePack object at the head of [b], and the bytes after it. *)
Fixpoint unpack (fuel : nat) (b : list byte) {struct fuel} : result (pyval * list byte) :=
  match fuel, b with
  | _, [] => Raise (OtherError "OutOfData")
  | O, _ :: _ => Raise (OtherError "StackError")
  | S fuel', x :: rest =>
      let n := Byte.to_N x in
      if (n <? 0x80)%N then Ok (PyInt (Z.of_N n), rest)
      else if (n <? 0x90)%N then unpack_map fuel' (N.to_nat (n - 0x80)) rest []
      else if (n <? 0xa0)%N then unpack_array fuel' (N.to_nat (n - 0x90)) rest []
      else if (n <? 0xc0)%N then unpack_str (N.to_nat (n - 0xa0)) rest
      else if (n =? 0xc0)%N then Ok (PyNone, rest)
      else if (n =? 0xc2)%N then Ok (PyBool false, rest)
      else if (n =? 0xc3)%N then Ok (PyBool true, rest)
      else if (n =? 0xc4)%N then
        match rest with
        | len :: rest' => unpack_bin (Byte.to_nat len) rest'
        | [] => Raise (OtherError "OutOfData")
        end
      else if (n =? 0xcc)%N then
        match rest with
        | v :: rest' => Ok (py_int_of_byte v, rest')
        | [] => Raise (OtherError "OutOfData")
        end
      else if (n =? 0xd0)%N then
        match rest with
        | v :: rest' =>
            let z := Z.of_N (Byte.to_N v) in
            Ok (PyInt (if z <? 128 then z else z - 256), rest')
        | [] => Raise (OtherError "OutOfData")
        end
      else if (n =? 0xd9)%N then
        match rest with
        | len :: rest' => unpack_str (Byte.to_nat len) rest'
        | [] => Raise (OtherError "OutOfData")
        end
      else if (0xe0 <=? n)%N then Ok (PyInt (Z.of_N n - 256), rest)
      else Raise (OtherError "format outside the fragment")
  end
with unpack_array (fuel : nat) (n : nat) (b : list byte) (acc : list pyval) {struct fuel}
    : result (pyval * list byte) :=
  match n, fuel with
  | O, _ => Ok (PyList (rev acc), b)
  | _, O => Raise (OtherError "StackError")
  | S n', S fuel' =>
      '(v, rest) ← unpack fuel' b;
      unpack_array fuel' n' rest (v :: acc)
  end
with unpack_map (fuel : nat) (n : nat) (b : list byte) (acc : list (string * pyval))
    {struct fuel} : result (pyval * list byte) :=
  match n, fuel with
  | O, _ => Ok (PyDict acc, b)
  | _, O => Raise (OtherError "StackError")
  | S n', S fuel' =>
      '(k, rest) ← unpack fuel' b;
      '(v, rest') ← unpack fuel' rest;
      match k with
      | PyStr s => unpack_map fuel' n' rest' (dict_set s v acc)
      | PyBytes _ => Raise (OtherError "bytes key outside the fragment")
      | _ => Raise ValueError
      end
  end.

(** [msgpack.unpackb]: one object and nothing after it; a truncated
    input is a [ValueError]. *)
Definition unpackb (payload : list byte) : result pyval :=
  match unpack (2 * length payload + 2) payload with
  | Ok (v, []) => Ok v
  | Ok (_, _ :: _) => Raise ExtraData
  | Raise (OtherError "OutOfData") => Raise ValueError
  | Raise e => Raise e
  end.

(** JSON text, after [json.loads] has decoded the bytes. *)
Definition dquote : ascii := "034"%char.

Definition is_json_ws (c : ascii) : bool :=
  let n := N_of_ascii c in
  ((n =? 32) || (n =? 9) || (n =? 10) || (n =? 13))%N.

Fixpoint skip_ws (s : string) : string :=
  match s with
  | String c s' => if is_json_ws c then skip_ws s' else s
  | EmptyString => s
  end.

(** The characters up to the closing quote. *)
Fixpoint json_string (s : string) : result (string * string) :=
  match s with
  | EmptyString => Raise JSONDecodeError
  | String c s' =>
      if Ascii.eqb c dquote then Ok (EmptyString, s')
      else if Ascii.eqb c "\"%char then Raise (OtherError "escape outside the fragment")
      else if (N_of_ascii c <? 32)%N then Raise JSONDecodeError
      else '(t, rest) ← json_string s'; Ok (String c t, rest)
  end.

Definition digit (c : ascii) : option Z :=
  let n := N_of_ascii c in
  if ((48 <=? n) && (n <=? 57))%N then Some (Z.of_N n - 48) else None.

Fixpoint json_digits (s : string) (acc : Z) : Z * string :=
  match s with
  | String c s' =>
      match digit c with
      | Some d => json_digits s' (10 * acc + d)
      | None => (acc, s)
      end
  | EmptyString => (acc, s)
  end.

(** An integer: [0], or a non-zero digit and more digits. *)
Definition json_natural (s : string) : result (Z * string) :=
  match s with
  | String c s' =>
      match digit c with
      | Some 0 => Ok (0, s')
      | Some d => Ok (json_digits s' d)
      | None => Raise JSONDecodeError
      end
  | EmptyString => Raise JSONDecodeError
  end.

Definition no_fraction (r : Z * string) : result (pyval * string) :=
  match snd r with
  | String "." _ | String "e" _ | String "E" _ =>
      Raise (OtherError "float outside the fragment")
  | _ => Ok (PyInt (fst r), snd r)
  end.

Definition json_number (s : string) : result (pyval * string) :=
  match s with
  | String "-" s' => '(z, rest) ← json_natural s'; no_fraction (- z, rest)
  | _ => r ← json_natural s; no_fraction r
  end.

Fixpoint json_value (fuel : nat) (s : string) {struct fuel} : result (pyval * string) :=
  match fuel with
  | O => Raise (OtherError "RecursionError")
  | S fuel' =>
      match s with
      | String "{" s' =>
          match skip_ws s' with
          | String "}" rest => Ok (PyDict [], rest)
          | s1 => json_members fuel' s1 []
          end
      | String "[" s' =>
          match skip_ws s' with
          | String "]" rest => Ok (PyList [], rest)
          | s1 => json_elements fuel' s1 []
          end
      | String "t" (String "r" (String "u" (String "e" rest))) => Ok (PyBool true, rest)
      | String "f" (String "a" (String "l" (String "s" (String "e" rest)))) =>
          Ok (PyBool false, rest)
      | String "n" (String "u" (String "l" (String "l" rest))) => Ok (PyNone, rest)
      | String "N" _ | String "I" _ => Raise (OtherError "float outside the fragment")
      | String c s' =>
          if Ascii.eqb c dquote then '(t, rest) ← json_string s'; Ok (PyStr t, rest)
          else json_number s
      | EmptyString => Raise JSONDecodeError
      end
  end
with json_elements (fuel : nat) (s : string) (acc : list pyval) {struct fuel}
    : result (pyval * string) :=
  match fuel with
  | O => Raise (OtherError "RecursionError")
  | S fuel' =>
      '(v, rest) ← json_value fuel' s;
      match skip_ws rest with
      | String "," r => json_elements fuel' (skip_ws r) (v :: acc)
      | String "]" r => Ok (PyList (rev (v :: acc)), r)
      | _ => Raise JSONDecodeError
      end
  end
with json_members (fuel : nat) (s : string) (acc : list (string * pyval)) {struct fuel}
    : result (pyval * string) :=
  match fuel, s with
  | O, _ => Raise (OtherError "RecursionError")
  | S fuel', String c s' =>
      if Ascii.eqb c dquote then
        '(k, rest) ← json_string s';
        match skip_ws rest with
        | String ":" r =>
            '(v, rest') ← json_value fuel' (skip_ws r);
            match skip_ws rest' with
            | String "," r' => json_members fuel' (skip_ws r') (dict_set k v acc)
            | String "}" r' => Ok (PyDict (dict_set k v acc), r')
            | _ => Raise JSONDecodeError
            end
        | _ => Raise JSONDecodeError
        end
      else Raise JSONDecodeError
  | S _, EmptyString => Raise JSONDecodeError
  end.

(** [json.loads] on bytes: one value, with whitespace around it. *)
Definition json_loads (payload : list byte) : result pyval :=
  match ascii_text payload with
  | None => Raise (OtherError "text outside ASCII")
  | Some s =>
      '(v, rest) ← json_value (2 * String.length s + 2) (skip_ws s);
      match skip_ws rest with
      | EmptyString => Ok v
      | String _ _ => Raise JSONDecodeError
      end
  end.

(** The advertisement payload as a list of (type, data) structures:
    a length byte [n >= 1], a type byte and [n - 1] data bytes each. *)
Fixpoint ad_structures (fuel : nat) (adv : list byte) : option (list (N * list byte)) :=
  match fuel, adv with
  | _, [] => Some []
  | O, _ :: _ => None
  | S fuel', len :: rest =>
      match Byte.to_nat len, rest with
      | S n, ty :: rest' =>
          if decide (n ≤ length rest')%nat
          then cons (Byte.to_N ty, take n rest') <$> ad_structures fuel' (drop n rest')
          else None
      | _, _ => None
      end
  end.

Definition ad_local_name (ads : list (N * list byte)) : option string :=
  match find (fun ad => (fst ad =? 0x09)%N) ads with
  | Some (_, raw) => ascii_text raw
  | None => None
  end.

Definition ad_manufacturer_data (ads : list (N * list byte)) : list (Z * list byte) :=
  omap (fun ad : N * list byte =>
          match ad with
          | (0xff%N, lo :: hi :: raw) =>
              Some (Z.of_N (Byte.to_N lo) + 256 * Z.of_N (Byte.to_N hi), raw)
          | _ => None
          end) ads.

(** A parser of device records: the address is the MAC of the record,
    the device has no name of its own, and a payload that is not a
    sequence of structures is a [ParseError]. *)
Definition parse_data (record : pyval) : result (BLEDevice * AdvertisementData) :=
  match record with
  | PyList [PyInt _; PyStr mac; PyInt r; PyBytes adv] =>
      match ad_structures (length adv) adv with
      | Some ads =>
          Ok ({| address := mac; name := None |},
              {| local_name := ad_local_name ads; rssi := r;
                 manufacturer_data := ad_manufacturer_data ads;
                 service_data := []; service_uuids := [] |})
      | None => Raise ParseError
      end
  | _ => Raise ParseError
  end.

(** [str(x)] of a string, [None], a bool and an int, and, outside the
    fragment ([bytes], lists and dicts), a mark. *)
Definition format_value (v : pyval) : string :=
  match v with
  | PyStr s => s
  | PyNone => "None"
  | PyBool true => "True"
  | PyBool false => "False"
  | PyInt z => pretty z
  | PyBytes _ | PyList _ | PyDict _ => "?"
  end.

Definition host : Host :=
  Build_Host "ab_gateway" unpackb json_loads parse_data format_value.

(** *** Sample payloads *)

Definition ascii_bytes (s : string) : list byte :=
  map byte_of_ascii (list_ascii_of_string s).

(** The bytes of a text in which an apostrophe stands for the double
    quote of JSON. *)
Definition json_bytes (s : string) : list byte :=
  map (fun c => byte_of_ascii (if Ascii.eqb c "'" then dquote else c))
    (list_ascii_of_string s).

Definition report_header : list byte :=
  [x82; xa3] ++ ascii_bytes "mac" ++ [xa8] ++ ascii_bytes "AA:BB:CC" ++
  [xa7] ++ ascii_bytes "devices".

(** The example of the specification: a report of gateway "AA:BB:CC"
    with one binary tuple (adType 2, MAC 112233445566, RSSI byte 0xC8,
    payload 0x0102), in MessagePack. *)
Definition device_tuple : list byte :=
  [x02; x11; x22; x33; x44; x55; x66; xc8; x01; x02].
Definition payload_binary : list byte :=
  report_header ++ [x91; xc4; x0a] ++ device_tuple.

(** The same device with a structure cut short (length 5, two bytes). *)
Definition device_tuple_bad : list byte :=
  [x02; x11; x22; x33; x44; x55; x66; xc8; x05; x09; x41].
Definition payload_binary_bad : list byte :=
  report_header ++ [x91; xc4; x0b] ++ device_tuple_bad.

(** A report with one list-form entry, in MessagePack and as JSON
    text, and a JSON text cut short. *)
Definition payload_list : list byte :=
  report_header ++ [x91; x94; x02; xac] ++ ascii_bytes "112233445566" ++
  [xd0; xc8; xa4] ++ ascii_bytes "0102".
Definition payload_json : list byte :=
  json_bytes "{'mac':'AA:BB:CC','devices':[[2,'112233445566',-56,'0102']]}".
Definition payload_json_cut : list byte := json_bytes "{'mac': ".

Definition report_list : pyval :=
  PyDict [("mac", PyStr "AA:BB:CC");
          ("devices",
           PyList [PyList [PyInt 2; PyStr "112233445566"; PyInt (-56); PyStr "0102"]])].

Definition record (rssi_value : Z) (adv : list byte) : pyval :=
  PyList [PyInt 2; PyStr "112233445566"; PyInt rssi_value; PyBytes adv].

Definition item (rssi_value : Z) (adv : list byte) : QueueItem :=
  {| gateway_id := PyStr "AA:BB:CC"; device := record rssi_value adv |}.

Definition device_1 : BLEDevice := {| address := "112233445566"; name := None |}.

Definition advertisement (rssi_value : Z) (local : option string) : AdvertisementData :=
  {| local_name := local; rssi := rssi_value; manufacturer_data := [];
     service_data := []; service_uuids := [] |}.

(** A scanner that has just been started on the given queue. *)
Definition started (queues : list QueueItem) : system :=
  {| scanner_of :=
       set_log [{| level := DEBUG; message := "%s: Connecting scanner" |}]
         (scanner_init "gw" queues);
     subscribed := true; task := Running |}.

End Sample.

(** The reference host with text that is not UTF-8: a payload that is
    one MessagePack string holding a byte from 0xf8 on, which no UTF-8
    text has, makes the binary decoder raise [UnicodeDecodeError]. *)
Module SampleText.

Definition not_utf8 (raw : list byte) : bool :=
  existsb (fun x => (0xf8 <=? Byte.to_N x)%N) raw.

Definition unpackb (payload : list byte) : result pyval :=
  match payload with
  | x :: raw =>
      let n := Byte.to_N x in
      if ((0xa0 <=? n) && (n <? 0xc0) && (N.of_nat (length raw) =? n - 0xa0)
          && not_utf8 raw)%N
      then Raise UnicodeDecodeError
      else Sample.unpackb payload
  | [] => Sample.unpackb payload
  end.

Definition host : Host :=
  Build_Host "ab_gateway" unpackb Sample.json_loads Sample.parse_data Sample.format_value.

End SampleText.



(** ** The binary tuple, the event stream and the subscriptions *)

(** The bytes of a binary tuple as [convert_dev_to_dict] reads them:
    byte 0, bytes 1 to 6, byte 7, and the rest. *)
Definition binary_tuple (adtype : byte) (mac : list byte) (rssi_byte : byte)
    (adpayload : list byte) : list byte :=
  adtype :: mac ++ rssi_byte :: adpayload.

Definition is_str_or_bytes (v : pyval) : bool :=
  match v with
  | PyStr _ | PyBytes _ => true
  | _ => false
  end.

Definition is_str (v : pyval) : bool :=
  match v with
  | PyStr _ => true
  | _ => false
  end.

Definition is_dict (v : pyval) : bool :=
  match v with
  | PyDict _ => true
  | _ => false
  end.

(** The queue items of one gateway for a list of device records. *)
Definition queue_items (gateway : pyval) (records : list pyval) : list QueueItem :=
  map (fun r => {| gateway_id := gateway; device := r |}) records.

(** The exceptions of indexing, of a missing method and of a bad
    argument: what normalising an entry can raise. *)
Definition is_entry_error (e : exn) : bool :=
  match e with
  | IndexError | TypeError | KeyError | AttributeError | ValueError => true
  | _ => false
  end.

(** [st'] is [st] with items added at the end of the queue and records
    at the end of the log, and nothing else changed. *)
Definition queue_and_log_grow (st st' : scanner) : Prop :=
  (exists items, queue st' = queue st ++ items) /\
  (exists records, log st' = log st ++ records) /\
  source st' = source st /\
  discovered_device_advertisement_datas st' = discovered_device_advertisement_datas st /\
  discovered_device_timestamps st' = discovered_device_timestamps st /\
  dispatched st' = dispatched st.

Section Events.
Context `{Host}.

(** The events of items whose parses are [parsed], each built at its
    clock reading. *)
Fixpoint events_of (items : list QueueItem)
    (parsed : list (BLEDevice * AdvertisementData)) (clock : list Z)
    : list BluetoothServiceInfoBleak :=
  match items, parsed, clock with
  | data :: items', (dev, advertisement_data) :: parsed', now :: clock' =>
      service_info data dev advertisement_data now :: events_of items' parsed' clock'
  | _, _, _ => []
  end.

End Events.

(** The last dispatched event of an address. *)
Definition last_event_for (a : string) (events : list BluetoothServiceInfoBleak)
    : option BluetoothServiceInfoBleak :=
  find (fun info => String.eqb (info_address info) a) (rev events).

(** The two dictionaries hold, for every address, the device, the
    advertisement and the clock reading of the last event dispatched for
    it, and nothing for an address without an event. *)
Definition cache_matches_events (st : scanner) : Prop :=
  forall a : string,
    discovered_device_advertisement_datas st !! a =
      (fun info => (info_device info, info_advertisement info)) <$>
        last_event_for a (dispatched st) /\
    discovered_device_timestamps st !! a =
      info_time <$> last_event_for a (dispatched st).

(** [hass.data[DISCOVERY_UNSUBSCRIBE]], when the key is there: the
    unsubscribe callables, each named by the topic it was returned for;
    and, as a trace, the callables that have been called. *)
Record hass_data := {
  discovery_unsubscribe : option (list string);
  unsub_called : list string;
}.

(** [discovery_topics] of [async_run]. *)
Definition discovery_topics (discovery_prefix : string) : list string :=
  [String.append discovery_prefix "/+"].

(** The subscription of [async_run]: one [mqtt.async_subscribe] per
    topic, and the callables they return are stored under the key. *)
Definition subscribe_topics (discovery_prefix : string) (h : hass_data) : hass_data :=
  {| discovery_unsubscribe := Some (discovery_topics discovery_prefix);
     unsub_called := unsub_called h |}.

(** [async_stop]. *)
Definition async_stop (h : hass_data) : bool * hass_data :=
  match discovery_unsubscribe h with
  | Some unsubs =>
      (true, {| discovery_unsubscribe := Some []; unsub_called := unsub_called h ++ unsubs |})
  | None => (true, h)
  end.

(** * Properties *)

(** ** Hex encoding and decoding *)

Example bytes_hex_sample :
  bytes_hex [x11; x22; x33; x44; x55; x66]%byte = "112233445566"%string.
Proof. reflexivity. Qed.

Example bytes_fromhex_sample :
  bytes_fromhex "01 0A ff" = Ok [x01; x0a; xff]%byte.
Proof. reflexivity. Qed.

Example bytes_fromhex_odd : bytes_fromhex "012" = Raise ValueError.
Proof. reflexivity. Qed.

Ltac ascii_cases c :=
  destruct c as [[] [] [] [] [] [] [] []]; try discriminate; try reflexivity.

Lemma bytes_hex_cons (x : byte) (b : list byte) :
  bytes_hex (x :: b) =
  String (hexdigit (Byte.to_N x / 16)) (String (hexdigit (Byte.to_N x mod 16)) (bytes_hex b)).
Proof. reflexivity. Qed.

Lemma length_bytes_hex (b : list byte) :
  String.length (bytes_hex b) = (2 * length b)%nat.
Proof.
  induction b as [|x b IH]; [reflexivity|].
  rewrite bytes_hex_cons. cbn [String.length length]. lia.
Qed.



Lemma bytes_fromhex_hex_cons (x : byte) (s : string) :
  bytes_fromhex
    (String (hexdigit (Byte.to_N x / 16)) (String (hexdigit (Byte.to_N x mod 16)) s)) =
  match bytes_fromhex s with
  | Ok b => Ok (x :: b)
  | Raise e => Raise e
  end.
Proof. destruct x; reflexivity. Qed.

(** Decoding the hex encoding gives the bytes back. *)
Lemma bytes_fromhex_hex (b : list byte) : bytes_fromhex (bytes_hex b) = Ok b.
Proof.
  induction b as [|x b IH]; [reflexivity|].
  rewrite bytes_hex_cons, bytes_fromhex_hex_cons, IH. reflexivity.
Qed.



Lemma length_str_lower (m : string) : String.length (str_lower m) = String.length m.
Proof. induction m as [|c m IH]; cbn; congruence. Qed.

Lemma hex_char_not_space (c : ascii) : is_hex_char c = true -> is_space c = false.
Proof. ascii_cases c. Qed.

Lemma hex_char_value (c : ascii) :
  is_hex_char c = true ->
  exists h, hexval c = Some h /\ (h < 16)%N /\ lower_char c = hexdigit h.
Proof.
  ascii_cases c; intros _; eexists; (split; [reflexivity|split; [reflexivity|reflexivity]]).
Qed.

Lemma hexdigit_of_nibbles (h l : N) :
  (h < 16)%N -> (l < 16)%N ->
  (Byte.to_N (byte_of_N (16 * h + l)) / 16 = h /\
   Byte.to_N (byte_of_N (16 * h + l)) mod 16 = l)%N.
Proof.
  intros Hh Hl.
  assert (Hn : Byte.to_N (byte_of_N (16 * h + l)) = (16 * h + l)%N).
  { unfold byte_of_N. apply Byte.to_of_N.
    rewrite byte_of_ascii_via_N, N_ascii_embedding by lia. reflexivity. }
  rewrite Hn. split.
  - symmetry. apply (N.div_unique _ 16 h l); lia.
  - symmetry. apply (N.mod_unique _ 16 h l); lia.
Qed.

Lemma str_lower_hex_bounded (n : nat) :
  forall (m : string) (bs : list byte),
    (String.length m <= n)%nat ->
    is_hex m = true -> bytes_fromhex m = Ok bs -> str_lower m = bytes_hex bs.
Proof.
  unfold is_hex. induction n as [|n IH]; intros m bs Hlen Hhex Hdec.
  - destruct m; [|cbn in Hlen; lia]. cbn in Hdec. injection Hdec as <-. reflexivity.
  - destruct m as [|c m]; [cbn in Hdec; injection Hdec as <-; reflexivity|].
    cbn [string_forallb] in Hhex. apply andb_prop in Hhex as [Hc Hm].
    destruct (hex_char_value c Hc) as (h & Hh & Hh16 & Hlc).
    cbn [bytes_fromhex] in Hdec. rewrite (hex_char_not_space c Hc), Hh in Hdec.
    destruct m as [|d m]; [discriminate|].
    cbn [string_forallb] in Hm. apply andb_prop in Hm as [Hd Hm].
    destruct (hex_char_value d Hd) as (l & Hl & Hl16 & Hld).
    rewrite Hl in Hdec.
    destruct (bytes_fromhex m) as [b|e] eqn:Hrest; [|discriminate].
    injection Hdec as <-.
    cbn [str_lower]. rewrite bytes_hex_cons.
    destruct (hexdigit_of_nibbles h l Hh16 Hl16) as [-> ->].
    rewrite Hlc, Hld. do 2 f_equal.
    apply IH; [cbn in Hlen; lia|exact Hm|exact Hrest].
Qed.

(** Lowercasing a string of hex digits gives the hex encoding of the
    bytes it denotes. *)
Lemma str_lower_hex (m : string) (bs : list byte) :
  is_hex m = true -> bytes_fromhex m = Ok bs -> str_lower m = bytes_hex bs.
Proof. apply (str_lower_hex_bounded (String.length m)). lia. Qed.

(** ** Normalisation *)

Ltac unfold_result := unfold mbind, result_bind, mret, result_ret in *.

Lemma convert_dev_to_dict_ok (data : list byte) (x0 x7 : byte) :
  data !! 0%nat = Some x0 -> data !! 7%nat = Some x7 ->
  convert_dev_to_dict data =
  Ok (PyList [PyInt (Z.of_N (Byte.to_N x0)); PyStr (bytes_hex (bytes_slice data 1 7));
              PyInt (Z.of_N (Byte.to_N x7) - 256); PyBytes (drop 8 data)]).
Proof.
  intros H0 H7. unfold convert_dev_to_dict, byte_at. unfold_result.
  rewrite H0, H7. reflexivity.
Qed.

Lemma convert_dev_to_dict_inv (data : list byte) (r : pyval) :
  convert_dev_to_dict data = Ok r ->
  exists x0 x7, data !! 0%nat = Some x0 /\ data !! 7%nat = Some x7.
Proof.
  unfold convert_dev_to_dict, byte_at. unfold_result.
  destruct (data !! 0%nat) as [x0|]; [|discriminate].
  destruct (data !! 7%nat) as [x7|]; [|discriminate]. eauto.
Qed.

Lemma length_bytes_slice_mac (data : list byte) (x7 : byte) :
  data !! 7%nat = Some x7 -> length (bytes_slice data 1 7) = 6%nat.
Proof.
  intros H7. apply lookup_lt_Some in H7. unfold bytes_slice.
  rewrite length_take, length_drop. lia.
Qed.

Lemma byte_value_range (x : byte) : 0 <= Z.of_N (Byte.to_N x) <= 255.
Proof. pose proof (Byte.to_N_bounded x). lia. Qed.

Lemma normalize_list_entry_ok (t r : pyval) (m a : string) (adv : list byte)
    (rest : list pyval) :
  bytes_fromhex a = Ok adv ->
  normalize (PyList (t :: PyStr m :: r :: PyStr a :: rest)) =
  Ok (PyList (t :: PyStr (str_lower m) :: r :: PyBytes adv :: rest)).
Proof.
  intros Ha. unfold normalize, normalize_list_entry, INDEX_MAC, INDEX_ADV.
  cbn. unfold_result. rewrite decide_True by lia.
  cbn. unfold_result. rewrite Ha. rewrite decide_True by (cbn; lia). reflexivity.
Qed.

Lemma normalize_list_entry_inv (dev : list pyval) (r : pyval) :
  normalize (PyList dev) = Ok r ->
  exists mac low hexs adv,
    dev !! 1%nat = Some mac /\ py_lower mac = Ok low /\
    dev !! 3%nat = Some hexs /\ py_bytes_fromhex hexs = Ok adv /\
    r = PyList (<[3%nat := adv]> (<[1%nat := low]> dev)).
Proof.
  unfold normalize, normalize_list_entry, INDEX_MAC, INDEX_ADV. unfold_result.
  unfold py_getitem at 1.
  destruct (dev !! 1%nat) as [mac|] eqn:Hmac; [|discriminate].
  destruct (py_lower mac) as [low|] eqn:Hlow; [|discriminate].
  unfold py_setitem at 1. case_decide as Hlen1; [|discriminate].
  unfold py_getitem.
  destruct (<[1%nat := low]> dev !! 3%nat) as [hexs|] eqn:Hhexs; [|discriminate].
  destruct (py_bytes_fromhex hexs) as [adv|] eqn:Hadv; [|discriminate].
  unfold py_setitem. case_decide as Hlen3; [|discriminate].
  intros [= <-]. rewrite list_lookup_insert_ne in Hhexs by lia.
  exists mac, low, hexs, adv. auto.
Qed.



Lemma normalize_shape (dev r : pyval) :
  normalize dev = Ok r -> (exists b, dev = PyBytes b) \/ (exists l, dev = PyList l).
Proof.
  destruct dev as [| | | s | b | l | d]; eauto; intros Hn; exfalso; revert Hn;
    unfold normalize, normalize_list_entry, INDEX_MAC; unfold_result;
    cbn [py_getitem]; try discriminate.
  destruct (str_chars s !! 1%nat) as [c|]; [|discriminate].
  destruct (py_lower c); discriminate.
Qed.

(** C6: a binary-tuple entry whose RSSI byte is [v] (0 <= v <= 255)
    normalises to a record whose RSSI is [v - 256]; a list-form entry
    that normalises keeps the RSSI it came with; and only these two
    shapes normalise. *)
Theorem rssi_normalization :
  (forall (data : list byte) (x : byte),
      data !! 7%nat = Some x ->
      let v := Z.of_N (Byte.to_N x) in
      0 <= v <= 255 /\
      (normalize (PyBytes data) ≫= fun r => py_getitem r INDEX_RSSI) = Ok (PyInt (v - 256)))
  /\ (forall (dev : list pyval) (r : pyval),
      normalize (PyList dev) = Ok r ->
      exists rssi,
        py_getitem (PyList dev) INDEX_RSSI = Ok rssi /\ py_getitem r INDEX_RSSI = Ok rssi)
  /\ (forall (dev r : pyval),
      normalize dev = Ok r -> (exists b, dev = PyBytes b) \/ (exists l, dev = PyList l)).
Proof.
  split; [|split].
  - intros data x H7 v. split; [apply byte_value_range|].
    destruct (lookup_lt_is_Some_2 data 0%nat) as [x0 H0];
      [apply lookup_lt_Some in H7; lia|].
    cbn [normalize]. rewrite (convert_dev_to_dict_ok data x0 x H0 H7). reflexivity.
  - intros dev r Hn.
    destruct (normalize_list_entry_inv dev r Hn) as (mac & low & hexs & adv & H1 & _ & H3 & _ & ->).
    destruct (lookup_lt_is_Some_2 dev 2%nat) as [rssi H2];
      [apply lookup_lt_Some in H3; lia|].
    exists rssi. unfold py_getitem, INDEX_RSSI.
    rewrite !list_lookup_insert_ne by lia. rewrite H2. auto.
  - apply normalize_shape.
Qed.

(** The record of the example of the specification: RSSI byte 0xC8
    gives -56, and the list form keeps its -56. *)
Lemma rssi_normalization_witness :
  (normalize (PyBytes [x02; x11; x22; x33; x44; x55; x66; xc8; x01; x02])
     ≫= fun r => py_getitem r INDEX_RSSI) = Ok (PyInt (-56))
  /\ exists rssi,
      py_getitem (PyList [PyInt 2; PyStr "112233445566"; PyInt (-56); PyStr "0102"])
        INDEX_RSSI = Ok rssi /\
      py_getitem (PyList [PyInt 2; PyStr "112233445566"; PyInt (-56); PyBytes [x01; x02]])
        INDEX_RSSI = Ok rssi.
Proof.
  destruct rssi_normalization as (Hbin & Hlist & _). split.
  - apply (Hbin [x02; x11; x22; x33; x44; x55; x66; xc8; x01; x02] xc8). reflexivity.
  - apply (Hlist [PyInt 2; PyStr "112233445566"; PyInt (-56); PyStr "0102"]). reflexivity.
Defined.




(** C4, as stated, fails for an RSSI that is not negative: the binary
    tuple with RSSI byte 0x05 and the list entry with RSSI 5 carry the
    same logical values, and their records differ (-251 and 5). *)
Lemma format_transparency_fails_nonnegative_rssi :
  same_logical_values [x02; x11; x22; x33; x44; x55; x66; x05; x01; x02]
    2 "112233445566" 5 "0102"
  /\ normalize (PyBytes [x02; x11; x22; x33; x44; x55; x66; x05; x01; x02]) =
     Ok (PyList [PyInt 2; PyStr "112233445566"; PyInt (-251); PyBytes [x01; x02]])
  /\ normalize (PyList [PyInt 2; PyStr "112233445566"; PyInt 5; PyStr "0102"]) =
     Ok (PyList [PyInt 2; PyStr "112233445566"; PyInt 5; PyBytes [x01; x02]])
  /\ normalize (PyBytes [x02; x11; x22; x33; x44; x55; x66; x05; x01; x02]) <>
     normalize (PyList [PyInt 2; PyStr "112233445566"; PyInt 5; PyStr "0102"]).
Proof.
  split; [|split; [|split]].
  - repeat split; try reflexivity. exists 5. split; reflexivity.
  - reflexivity.
  - reflexivity.
  - discriminate.
Qed.

(** C4 (amended): a binary-tuple entry and a list-form entry that carry
    the same logical values, with a negative RSSI, normalise to the same
    record: the adType, the lowercase hex of the MAC bytes, the RSSI and
    the payload bytes. *)
Theorem format_transparency (data : list byte)
    (adtype : Z) (mac : string) (rssi : Z) (adv : string) :
  same_logical_values data adtype mac rssi adv ->
  rssi < 0 ->
  normalize (PyBytes data) =
    normalize (PyList [PyInt adtype; PyStr mac; PyInt rssi; PyStr adv])
  /\ normalize (PyBytes data) =
    Ok (PyList [PyInt adtype; PyStr (bytes_hex (bytes_slice data 1 7));
                PyInt rssi; PyBytes (drop 8 data)]).
Proof.
  intros (Ht & (Hhex & Hmac & _) & (v & Hv & Hr) & Hadv) Hneg.
  unfold byte_at in Ht, Hv.
  destruct (data !! 0%nat) as [x0|] eqn:H0; [|discriminate]. injection Ht as <-.
  destruct (data !! 7%nat) as [x7|] eqn:H7; [|discriminate]. injection Hv as <-.
  assert (Hrssi : rssi = Z.of_N (Byte.to_N x7) - 256).
  { subst rssi. unfold signed_byte in *. pose proof (byte_value_range x7).
    destruct (Z.ltb_spec (Z.of_N (Byte.to_N x7)) 128); lia. }
  rewrite (normalize_list_entry_ok _ _ _ _ _ [] Hadv).
  cbn [normalize]. rewrite (convert_dev_to_dict_ok data x0 x7 H0 H7).
  rewrite (str_lower_hex mac _ Hhex Hmac), <- Hrssi. split; reflexivity.
Qed.

Lemma format_transparency_witness :
  normalize (PyBytes [x02; x11; x22; x33; x44; x55; x66; xc8; x01; x02]) =
    normalize (PyList [PyInt 2; PyStr "112233445566"; PyInt (-56); PyStr "0102"])
  /\ normalize (PyBytes [x02; x11; x22; x33; x44; x55; x66; xc8; x01; x02]) =
    Ok (PyList [PyInt 2;
                PyStr (bytes_hex
                         (bytes_slice [x02; x11; x22; x33; x44; x55; x66; xc8; x01; x02] 1 7));
                PyInt (-56);
                PyBytes (drop 8 [x02; x11; x22; x33; x44; x55; x66; xc8; x01; x02])]).
Proof.
  apply (format_transparency [x02; x11; x22; x33; x44; x55; x66; xc8; x01; x02]
           2 "112233445566" (-56) "0102").
  - repeat split; try reflexivity. exists 200. split; reflexivity.
  - lia.
Defined.

(** ** The message path *)

Ltac unfold_handler :=
  unfold try_except, hbind, hlift, hret, hraise, logger, queues_put in *.

Lemma set_queue_app_nil (st : scanner) : set_queue (queue st ++ []) st = st.
Proof. destruct st. unfold set_queue. cbn. rewrite app_nil_r. reflexivity. Qed.

Lemma set_queue_app_app (st : scanner) (q1 q2 : list QueueItem) :
  set_queue (queue (set_queue (queue st ++ q1) st) ++ q2) (set_queue (queue st ++ q1) st) =
  set_queue (queue st ++ q1 ++ q2) st.
Proof. unfold set_queue. cbn. rewrite app_assoc. reflexivity. Qed.

Lemma result_bind_raise {A B} (r : result A) (k : A -> result B) (e : exn) :
  (r ≫= k) = Raise e -> r = Raise e \/ exists a, r = Ok a /\ k a = Raise e.
Proof. destruct r as [a|e']; cbn; [eauto|]. intros [= ->]. auto. Qed.

Lemma bytes_fromhex_raise_bounded (n : nat) :
  forall (s : string) (e : exn),
    (String.length s <= n)%nat -> bytes_fromhex s = Raise e -> e = ValueError.
Proof.
  induction n as [|n IH]; intros s e Hlen Hs.
  - destruct s; [discriminate|cbn in Hlen; lia].
  - destruct s as [|c s]; [discriminate|]. cbn [bytes_fromhex] in Hs. cbn in Hlen.
    destruct (is_space c); [apply (IH s); [lia|exact Hs]|].
    destruct (hexval c); [|congruence].
    destruct s as [|d s]; [congruence|].
    destruct (hexval d); [|congruence].
    destruct (bytes_fromhex s) as [b|e'] eqn:Hrest; [discriminate|].
    injection Hs as <-. apply (IH s); [cbn in Hlen; lia|exact Hrest].
Qed.

Lemma bytes_fromhex_raise (s : string) (e : exn) :
  bytes_fromhex s = Raise e -> e = ValueError.
Proof. apply (bytes_fromhex_raise_bounded (String.length s)). lia. Qed.

Lemma py_getitem_raise (obj : pyval) (i : nat) (e : exn) :
  py_getitem obj i = Raise e -> isinstance_ExtraData e = false.
Proof.
  destruct obj; cbn;
    repeat match goal with |- context [match ?x with _ => _ end] => destruct x end;
    intros [= <-]; reflexivity.
Qed.

Lemma py_setitem_raise (obj : pyval) (i : nat) (x : pyval) (e : exn) :
  py_setitem obj i x = Raise e -> isinstance_ExtraData e = false.
Proof.
  destruct obj; cbn; try case_decide; intros [= <-]; reflexivity.
Qed.

Lemma py_lower_raise (obj : pyval) (e : exn) :
  py_lower obj = Raise e -> isinstance_ExtraData e = false.
Proof. destruct obj; cbn; intros [= <-]; reflexivity. Qed.

Lemma py_bytes_fromhex_raise (obj : pyval) (e : exn) :
  py_bytes_fromhex obj = Raise e -> isinstance_ExtraData e = false.
Proof.
  destruct obj; cbn; try (intros [= <-]; reflexivity).
  unfold_result. destruct (bytes_fromhex s) as [b|e'] eqn:Hs; [discriminate|].
  intros [= <-]. apply bytes_fromhex_raise in Hs as ->. reflexivity.
Qed.

Lemma normalize_list_entry_raise (dev : pyval) (e : exn) :
  normalize_list_entry dev = Raise e -> isinstance_ExtraData e = false.
Proof.
  unfold normalize_list_entry. intros Hn.
  apply result_bind_raise in Hn as [Hn|(mac & _ & Hn)]; [eauto using py_getitem_raise|].
  apply result_bind_raise in Hn as [Hn|(low & _ & Hn)]; [eauto using py_lower_raise|].
  apply result_bind_raise in Hn as [Hn|(dev1 & _ & Hn)]; [eauto using py_setitem_raise|].
  apply result_bind_raise in Hn as [Hn|(hexs & _ & Hn)]; [eauto using py_getitem_raise|].
  apply result_bind_raise in Hn as [Hn|(adv & _ & Hn)]; [eauto using py_bytes_fromhex_raise|].
  eauto using py_setitem_raise.
Qed.

(** Normalisation never raises [ExtraData]. *)
Lemma normalize_raise (dev : pyval) (e : exn) :
  normalize dev = Raise e -> isinstance_ExtraData e = false.
Proof.
  destruct dev; cbn [normalize]; try apply normalize_list_entry_raise.
  unfold convert_dev_to_dict, byte_at. unfold_result.
  destruct (b !! 0%nat); [|intros [= <-]; reflexivity].
  destruct (b !! 7%nat); [discriminate|intros [= <-]; reflexivity].
Qed.

Section MessagePath.
Context `{Host}.

(** What a report puts on the queue, and how processing it ends, do
    not depend on the scanner. *)
Lemma put_devices_spec (gateway : pyval) (devs : list pyval) :
  exists (r : result unit) (items : list QueueItem),
    (forall e, r = Raise e -> isinstance_ExtraData e = false) /\
    forall st, put_devices gateway devs st = (r, set_queue (queue st ++ items) st).
Proof.
  induction devs as [|dev devs (r & items & Hr & IH)].
  - exists (Ok tt), []. split; [discriminate|]. intros st. cbn.
    unfold hret. rewrite set_queue_app_nil. reflexivity.
  - destruct (normalize dev) as [d|e] eqn:Hd.
    + exists r, ({| gateway_id := gateway; device := d |} :: items). split; [exact Hr|].
      intros st. cbn [put_devices]. unfold_handler. rewrite Hd, IH.
      rewrite set_queue_app_app. reflexivity.
    + exists (Raise e), []. split; [intros e' [= <-]; eauto using normalize_raise|].
      intros st. cbn [put_devices]. unfold_handler. rewrite Hd, set_queue_app_nil.
      reflexivity.
Qed.

Lemma async_process_discovery_data_spec (data : pyval) :
  exists (r : result bool) (items : list QueueItem),
    (forall e, r = Raise e -> isinstance_ExtraData e = false) /\
    forall st,
      async_process_discovery_data data st = (r, set_queue (queue st ++ items) st).
Proof.
  unfold async_process_discovery_data. unfold_handler.
  destruct (py_get data "mac" PyNone) as [gateway|e] eqn:Hmac.
  2: { exists (Raise e), []. split.
       - intros e' [= <-]. destruct data; cbn in Hmac; try discriminate;
           injection Hmac as <-; reflexivity.
       - intros st. rewrite set_queue_app_nil. reflexivity. }
  destruct (py_get data "devices" (PyList [])) as [devices|e] eqn:Hdevices.
  2: { exists (Raise e), []. split.
       - intros e' [= <-]. destruct data; cbn in Hdevices; try discriminate;
           injection Hdevices as <-; reflexivity.
       - intros st. rewrite set_queue_app_nil. reflexivity. }
  destruct (py_iter devices) as [devs|e] eqn:Hdevs.
  2: { exists (Raise e), []. split.
       - intros e' [= <-]. destruct devices; cbn in Hdevs; try discriminate;
           injection Hdevs as <-; reflexivity.
       - intros st. rewrite set_queue_app_nil. reflexivity. }
  destruct (put_devices_spec gateway devs) as (r & items & Hr & Hput).
  destruct r as [[]|e].
  - exists (Ok true), items. split; [discriminate|].
    intros st. rewrite Hput. reflexivity.
  - exists (Raise e), items. split; [intros e' [= <-]; auto|].
    intros st. rewrite Hput. reflexivity.
Qed.

(** The binary path: the handler enqueues what the decoded report
    enqueues, also when processing it raises. *)
Lemma message_binary_path (payload : list byte) (data : pyval) (st : scanner) :
  unpackb payload = Ok data ->
  queue (snd (async_message_received payload st)) =
    queue (snd (async_process_discovery_data data st))
  /\ (fst (async_process_discovery_data data st) = Ok true ->
      fst (async_message_received payload st) = Ok tt).
Proof.
  intros Hbin.
  destruct (async_process_discovery_data_spec data) as (r & items & Hr & Hspec).
  unfold async_message_received. unfold_handler. rewrite Hbin, !Hspec.
  destruct r as [b|e]; [split; reflexivity|].
  rewrite (Hr e eq_refl). cbn [fst snd]. split; [|discriminate].
  destruct (isinstance_UnicodeDecodeError e); [reflexivity|].
  destruct (isinstance_ValueError e); reflexivity.
Qed.

(** The JSON path. *)
Lemma message_json_path (payload : list byte) (data : pyval) (st : scanner) :
  unpackb payload = Raise ExtraData -> json_loads payload = Ok data ->
  queue (snd (async_message_received payload st)) =
    queue (snd (async_process_discovery_data data st))
  /\ (fst (async_process_discovery_data data st) = Ok true ->
      fst (async_message_received payload st) = Ok tt).
Proof.
  intros Hbin Hjson.
  destruct (async_process_discovery_data_spec data) as (r & items & Hr & Hspec).
  unfold async_message_received. unfold_handler. rewrite Hbin. cbn [isinstance_ExtraData].
  rewrite Hjson.
  destruct (py_get data "mac" PyNone) as [gateway|e] eqn:Hmac.
  - rewrite !Hspec. destruct r as [b|e]; cbn [fst snd].
    + split; [reflexivity|]. intros _. reflexivity.
    + split; [reflexivity|discriminate].
  - unfold async_process_discovery_data. unfold_handler. rewrite Hmac.
    split; [reflexivity|discriminate].
Qed.

(** C2: when the binary decoder reports extra data and the JSON
    decoder then raises, the exception leaves the handler: it is
    raised inside the [except ExtraData] clause, where the later
    clauses of the [try] do not apply.  Nothing is enqueued or
    dispatched, and one debug record is logged. *)
Theorem json_failure_leaves_handler (payload : list byte) (e : exn) (st : scanner) :
  unpackb payload = Raise ExtraData ->
  json_loads payload = Raise e ->
  async_message_received payload st =
    (Raise e,
     set_log (log st ++ [{| level := DEBUG;
                            message := "Msgpack cannot decode data: %s, try json instead" |}])
       st).
Proof.
  intros Hbin Hjson. unfold async_message_received. unfold_handler.
  rewrite Hbin. cbn [isinstance_ExtraData]. rewrite Hjson. reflexivity.
Qed.

(** A [ValueError] of the body of the [try] reaches the last clause,
    which raises [NameError] on the unbound name [payload]. *)
Lemma binary_value_error_raises_name_error (payload : list byte) (st : scanner) :
  unpackb payload = Raise ValueError ->
  async_message_received payload st = (Raise NameError, st).
Proof.
  intros Hbin. unfold async_message_received. unfold_handler.
  rewrite Hbin. reflexivity.
Qed.

(** The message handler touches the queue and the log only. *)
Lemma async_message_received_frame (payload : list byte) (st : scanner) :
  discovered_device_advertisement_datas (snd (async_message_received payload st)) =
    discovered_device_advertisement_datas st /\
  discovered_device_timestamps (snd (async_message_received payload st)) =
    discovered_device_timestamps st /\
  dispatched (snd (async_message_received payload st)) = dispatched st.
Proof.
  unfold async_message_received. unfold_handler.
  destruct (unpackb payload) as [data|e].
  - destruct (async_process_discovery_data_spec data) as (r & items & Hr & Hspec).
    rewrite Hspec. destruct r as [b|e]; [cbn; auto|].
    rewrite (Hr e eq_refl).
    destruct (isinstance_UnicodeDecodeError e), (isinstance_ValueError e); cbn; auto.
  - destruct (isinstance_ExtraData e).
    + destruct (json_loads payload) as [data|e']; [|cbn; auto].
      destruct (py_get data "mac" PyNone) as [gateway|e']; [|cbn; auto].
      destruct (async_process_discovery_data_spec data) as (r & items & Hr & Hspec).
      rewrite Hspec. destruct r; cbn; auto.
    + destruct (isinstance_UnicodeDecodeError e), (isinstance_ValueError e); cbn; auto.
Qed.

End MessagePath.

(** ** The processing path *)

Section ProcessingPath.
Context `{Host}.

Lemma or_else_present (x : option string) (y s : string) :
  present x s -> or_else x y = s.
Proof.
  intros [-> Hs]. unfold or_else.
  destruct (String.eqb_spec s ""); [contradiction|reflexivity].
Qed.

Lemma or_else_absent (x : option string) (y : string) : absent x -> or_else x y = y.
Proof. intros [-> | ->]; reflexivity. Qed.

Lemma async_on_advertisement_ok (data : QueueItem) (now : Z) (st : scanner)
    (dev : BLEDevice) (advertisement_data : AdvertisementData) :
  parse_data (device data) = Ok (dev, advertisement_data) ->
  async_on_advertisement data now st =
    (Ok tt,
     {| source := source st; queue := queue st;
        discovered_device_advertisement_datas :=
          <[address dev := (dev, advertisement_data)]>
            (discovered_device_advertisement_datas st);
        discovered_device_timestamps :=
          <[address dev := now]> (discovered_device_timestamps st);
        dispatched := dispatched st ++ [service_info data dev advertisement_data now];
        log := log st |}).
Proof.
  intros Hparse.
  unfold async_on_advertisement, new_info_callback, store_advertisement_data, store_timestamp.
  unfold_handler.
  rewrite Hparse. reflexivity.
Qed.

Lemma async_on_advertisement_raise (data : QueueItem) (now : Z) (st : scanner) (e : exn) :
  parse_data (device data) = Raise e ->
  async_on_advertisement data now st = (Raise e, st).
Proof.
  intros Hparse. unfold async_on_advertisement. unfold_handler.
  rewrite Hparse. reflexivity.
Qed.

Lemma loop_iteration_empty (now : Z) (st : scanner) :
  queue st = [] -> loop_iteration now st = (Ok tt, st).
Proof.
  intros Hq. unfold loop_iteration, queue_get. unfold_handler. rewrite Hq. reflexivity.
Qed.

Lemma loop_iteration_ok (now : Z) (st : scanner) (data : QueueItem)
    (rest : list QueueItem) (dev : BLEDevice) (advertisement_data : AdvertisementData) :
  queue st = data :: rest ->
  parse_data (device data) = Ok (dev, advertisement_data) ->
  loop_iteration now st =
    (Ok tt,
     {| source := source st; queue := rest;
        discovered_device_advertisement_datas :=
          <[address dev := (dev, advertisement_data)]>
            (discovered_device_advertisement_datas st);
        discovered_device_timestamps :=
          <[address dev := now]> (discovered_device_timestamps st);
        dispatched := dispatched st ++ [service_info data dev advertisement_data now];
        log := log st |}).
Proof.
  intros Hq Hparse. unfold loop_iteration, queue_get. unfold_handler. rewrite Hq.
  rewrite (async_on_advertisement_ok _ _ _ _ _ Hparse). reflexivity.
Qed.

Lemma loop_iteration_raise (now : Z) (st : scanner) (data : QueueItem)
    (rest : list QueueItem) (e : exn) :
  queue st = data :: rest ->
  parse_data (device data) = Raise e ->
  loop_iteration now st =
    (if isinstance_TimeoutError e then Ok tt else Raise e, set_queue rest st).
Proof.
  intros Hq Hparse. unfold loop_iteration, queue_get. unfold_handler. rewrite Hq.
  rewrite (async_on_advertisement_raise _ _ _ _ Hparse).
  destruct (isinstance_TimeoutError e); reflexivity.
Qed.

(** C8: the event dispatched for an item takes its name from the
    fallback chain: the advertised local name when it is given and not
    empty, otherwise the name of the device, which is the device now
    held in the cache for the address, when that is given and not
    empty, otherwise the address. *)
Theorem event_name_fallback (data : QueueItem) (now : Z) (st : scanner)
    (dev : BLEDevice) (advertisement_data : AdvertisementData) :
  parse_data (device data) = Ok (dev, advertisement_data) ->
  exists info,
    async_on_advertisement data now st =
      (Ok tt, snd (async_on_advertisement data now st)) /\
    dispatched (snd (async_on_advertisement data now st)) = dispatched st ++ [info] /\
    discovered_device_advertisement_datas (snd (async_on_advertisement data now st))
      !! address dev = Some (dev, advertisement_data) /\
    info_address info = address dev /\
    (forall n, present (local_name advertisement_data) n -> info_name info = n) /\
    (absent (local_name advertisement_data) ->
     forall n, present (name dev) n -> info_name info = n) /\
    (absent (local_name advertisement_data) -> absent (name dev) ->
     info_name info = address dev).
Proof.
  intros Hparse. exists (service_info data dev advertisement_data now).
  rewrite (async_on_advertisement_ok _ _ _ _ _ Hparse). cbn [fst snd dispatched
    discovered_device_advertisement_datas service_info info_name info_address].
  repeat split.
  - apply lookup_insert_eq.
  - intros n Hn. apply or_else_present. exact Hn.
  - intros Hl n Hn. rewrite (or_else_absent _ _ Hl). apply or_else_present. exact Hn.
  - intros Hl Hd. rewrite (or_else_absent _ _ Hl). apply or_else_absent. exact Hd.
Qed.

(** *** The loop task *)

Lemma step_tick_ok (s : system) (now : Z) (data : QueueItem) (rest : list QueueItem)
    (dev : BLEDevice) (advertisement_data : AdvertisementData) :
  task s = Running ->
  queue (scanner_of s) = data :: rest ->
  parse_data (device data) = Ok (dev, advertisement_data) ->
  step s (Tick now) =
    {| scanner_of :=
         {| source := source (scanner_of s); queue := rest;
            discovered_device_advertisement_datas :=
              <[address dev := (dev, advertisement_data)]>
                (discovered_device_advertisement_datas (scanner_of s));
            discovered_device_timestamps :=
              <[address dev := now]> (discovered_device_timestamps (scanner_of s));
            dispatched :=
              dispatched (scanner_of s) ++ [service_info data dev advertisement_data now];
            log := log (scanner_of s) |};
       subscribed := subscribed s; task := Running |}.
Proof.
  intros Htask Hq Hparse. unfold step. rewrite Htask.
  rewrite (loop_iteration_ok _ _ _ _ _ _ Hq Hparse). reflexivity.
Qed.

Lemma step_tick_raise (s : system) (now : Z) (data : QueueItem) (rest : list QueueItem)
    (e : exn) :
  task s = Running ->
  queue (scanner_of s) = data :: rest ->
  parse_data (device data) = Raise e ->
  isinstance_TimeoutError e = false ->
  step s (Tick now) =
    {| scanner_of := set_queue rest (scanner_of s);
       subscribed := subscribed s; task := Ended e |}.
Proof.
  intros Htask Hq Hparse He. unfold step. rewrite Htask.
  rewrite (loop_iteration_raise _ _ _ _ _ Hq Hparse), He. reflexivity.
Qed.

(** Once the loop task has ended, nothing is dispatched any more. *)
Lemma ended_stays_ended (inputs : list input) :
  forall (s : system) (e : exn),
    task s = Ended e ->
    task (run_inputs s inputs) = Ended e /\
    dispatched (scanner_of (run_inputs s inputs)) = dispatched (scanner_of s) /\
    discovered_device_advertisement_datas (scanner_of (run_inputs s inputs)) =
      discovered_device_advertisement_datas (scanner_of s) /\
    discovered_device_timestamps (scanner_of (run_inputs s inputs)) =
      discovered_device_timestamps (scanner_of s).
Proof.
  induction inputs as [|i inputs IH]; intros s e Htask; [cbn; auto|].
  cbn [run_inputs fold_left]. fold (run_inputs (step s i) inputs).
  destruct i as [payload|now|].
  - cbn [step]. destruct (subscribed s); [|apply IH; exact Htask].
    destruct (async_message_received_frame payload (scanner_of s)) as (Ha & Ht & Hd).
    destruct (IH {| scanner_of := snd (async_message_received payload (scanner_of s));
                    subscribed := true; task := task s |} e Htask) as (-> & -> & -> & ->).
    cbn [scanner_of]. auto.
  - cbn [step]. rewrite Htask. apply IH. exact Htask.
  - destruct (IH (step s Stop) e Htask) as (-> & -> & -> & ->). cbn. auto.
Qed.

(** C1 (amended): when the parser fails with [ParseError] on the item
    at the head of the queue, no event is dispatched for the item, the
    two dictionaries and the log stay as they are, and the error, which
    the loop does not catch, ends the loop task: whatever happens
    next, nothing more is dispatched. *)
Theorem parse_failure_ends_loop (s : system) (data : QueueItem)
    (rest : list QueueItem) (now : Z) :
  task s = Running ->
  queue (scanner_of s) = data :: rest ->
  parse_data (device data) = Raise ParseError ->
  task (step s (Tick now)) = Ended ParseError /\
  queue (scanner_of (step s (Tick now))) = rest /\
  dispatched (scanner_of (step s (Tick now))) = dispatched (scanner_of s) /\
  log (scanner_of (step s (Tick now))) = log (scanner_of s) /\
  discovered_device_advertisement_datas (scanner_of (step s (Tick now))) =
    discovered_device_advertisement_datas (scanner_of s) /\
  discovered_device_timestamps (scanner_of (step s (Tick now))) =
    discovered_device_timestamps (scanner_of s) /\
  forall inputs,
    task (run_inputs (step s (Tick now)) inputs) = Ended ParseError /\
    dispatched (scanner_of (run_inputs (step s (Tick now)) inputs)) =
      dispatched (scanner_of s).
Proof.
  intros Htask Hq Hparse.
  rewrite (step_tick_raise s now data rest ParseError Htask Hq Hparse eq_refl).
  cbn [task scanner_of]. do 6 (split; [reflexivity|]). intros inputs.
  destruct (ended_stays_ended inputs
              {| scanner_of := set_queue rest (scanner_of s);
                 subscribed := subscribed s; task := Ended ParseError |}
              ParseError eq_refl) as (Ht & Hd & _).
  split; [exact Ht|exact Hd].
Qed.

(** C5: two items for the same address, processed one after the
    other, leave the dictionaries with the device, the advertisement
    and the clock reading of the second item at that address, and the
    callback is called twice, once per item and in order. *)
Theorem last_write_wins (s : system) (item1 item2 : QueueItem) (rest : list QueueItem)
    (now1 now2 : Z) (dev1 dev2 : BLEDevice) (adv1 adv2 : AdvertisementData) :
  task s = Running ->
  queue (scanner_of s) = item1 :: item2 :: rest ->
  parse_data (device item1) = Ok (dev1, adv1) ->
  parse_data (device item2) = Ok (dev2, adv2) ->
  address dev1 = address dev2 ->
  discovered_device_advertisement_datas
    (scanner_of (run_inputs s [Tick now1; Tick now2])) !! address dev1 =
    Some (dev2, adv2) /\
  discovered_device_timestamps
    (scanner_of (run_inputs s [Tick now1; Tick now2])) !! address dev1 = Some now2 /\
  dispatched (scanner_of (run_inputs s [Tick now1; Tick now2])) =
    dispatched (scanner_of s) ++
      [service_info item1 dev1 adv1 now1; service_info item2 dev2 adv2 now2] /\
  queue (scanner_of (run_inputs s [Tick now1; Tick now2])) = rest /\
  task (run_inputs s [Tick now1; Tick now2]) = Running.
Proof.
  intros Htask Hq Hp1 Hp2 Haddr. cbn [run_inputs fold_left].
  rewrite (step_tick_ok s now1 item1 (item2 :: rest) dev1 adv1 Htask Hq Hp1).
  rewrite (step_tick_ok _ now2 item2 rest dev2 adv2); [|reflexivity|reflexivity|exact Hp2].
  cbn [scanner_of task queue dispatched discovered_device_advertisement_datas
       discovered_device_timestamps].
  rewrite Haddr. repeat split.
  - apply lookup_insert_eq.
  - apply lookup_insert_eq.
  - rewrite <- app_assoc. reflexivity.
Qed.

(** *** Invariants of the scanner over time *)

(** One turn of the loop: nothing to do, an item processed, or an
    item whose parse raised. *)
Lemma loop_iteration_cases (now : Z) (st : scanner) :
  loop_iteration now st = (Ok tt, st)
  \/ (exists data rest dev advertisement_data,
        queue st = data :: rest /\
        loop_iteration now st =
          (Ok tt,
           {| source := source st; queue := rest;
              discovered_device_advertisement_datas :=
                <[address dev := (dev, advertisement_data)]>
                  (discovered_device_advertisement_datas st);
              discovered_device_timestamps :=
                <[address dev := now]> (discovered_device_timestamps st);
              dispatched :=
                dispatched st ++ [service_info data dev advertisement_data now];
              log := log st |}))
  \/ (exists data rest r,
        queue st = data :: rest /\ loop_iteration now st = (r, set_queue rest st)).
Proof.
  destruct (queue st) as [|data rest] eqn:Hq.
  - left. apply loop_iteration_empty. exact Hq.
  - destruct (parse_data (device data)) as [[dev advertisement_data]|e] eqn:Hparse.
    + right. left. exists data, rest, dev, advertisement_data. split; [reflexivity|].
      apply loop_iteration_ok; assumption.
    + right. right. exists data, rest. eexists. split; [reflexivity|].
      apply (loop_iteration_raise now st data rest e); assumption.
Qed.

(** What a step keeps: the addresses in the two dictionaries, and any
    property of the dispatched events that every built event has. *)
Lemma step_invariant (P : BluetoothServiceInfoBleak -> Prop) (s : system) (i : input) :
  (forall data dev advertisement_data now,
      P (service_info data dev advertisement_data now)) ->
  dom (discovered_device_advertisement_datas (scanner_of s)) ⊆
    dom (discovered_device_advertisement_datas (scanner_of (step s i))) /\
  dom (discovered_device_timestamps (scanner_of s)) ⊆
    dom (discovered_device_timestamps (scanner_of (step s i))) /\
  (Forall P (dispatched (scanner_of s)) -> Forall P (dispatched (scanner_of (step s i)))).
Proof.
  intros HP. destruct i as [payload|now|]; cbn [step].
  - destruct (subscribed s); [|auto].
    destruct (async_message_received_frame payload (scanner_of s)) as (Ha & Ht & Hd).
    cbn [scanner_of]. rewrite Ha, Ht, Hd. auto.
  - destruct (task s); [|auto].
    destruct (loop_iteration_cases now (scanner_of s))
      as [-> | [(data & rest & dev & adv & _ & ->) | (data & rest & r & _ & ->)]].
    + cbn. auto.
    + cbn [scanner_of discovered_device_advertisement_datas
           discovered_device_timestamps dispatched].
      rewrite !dom_insert_L. split; [set_solver|]. split; [set_solver|].
      intros Hall. apply Forall_app. split; [exact Hall|]. constructor; [apply HP|constructor].
    + destruct r; cbn; auto.
  - cbn. auto.
Qed.

Lemma run_inputs_invariant (P : BluetoothServiceInfoBleak -> Prop) (inputs : list input) :
  (forall data dev advertisement_data now,
      P (service_info data dev advertisement_data now)) ->
  forall s : system,
    dom (discovered_device_advertisement_datas (scanner_of s)) ⊆
      dom (discovered_device_advertisement_datas (scanner_of (run_inputs s inputs))) /\
    dom (discovered_device_timestamps (scanner_of s)) ⊆
      dom (discovered_device_timestamps (scanner_of (run_inputs s inputs))) /\
    (Forall P (dispatched (scanner_of s)) ->
     Forall P (dispatched (scanner_of (run_inputs s inputs)))).
Proof.
  intros HP. induction inputs as [|i inputs IH]; intros s; [cbn; auto|].
  cbn [run_inputs fold_left]. fold (run_inputs (step s i) inputs).
  destruct (step_invariant P s i HP) as (Ha & Ht & Hd).
  destruct (IH (step s i)) as (Ha' & Ht' & Hd').
  split; [etrans; eassumption|]. split; [etrans; eassumption|]. auto.
Qed.

(** C9: whatever the scanner receives and however long its loop runs
    (messages, turns of the loop, [async_stop]), every address in the
    two dictionaries stays there: the set of cached addresses only
    grows. *)
Theorem cache_never_shrinks (s : system) (inputs : list input) :
  dom (discovered_device_advertisement_datas (scanner_of s)) ⊆
    dom (discovered_device_advertisement_datas (scanner_of (run_inputs s inputs))) /\
  dom (discovered_device_timestamps (scanner_of s)) ⊆
    dom (discovered_device_timestamps (scanner_of (run_inputs s inputs))).
Proof.
  destruct (run_inputs_invariant (fun _ => True) inputs (fun _ _ _ _ => I) s)
    as (Ha & Ht & _).
  split; assumption.
Qed.

(** C10: [async_start] registers the scanner as not connectable, and
    every event the scanner dispatches afterwards is built with
    [connectable=True]. *)
Theorem dispatched_events_connectable (unique_id : option string)
    (queues : list QueueItem) (reg : registration) (s : system) (inputs : list input) :
  async_start unique_id queues = Ok (reg, s) ->
  reg_connectable reg = false /\
  Forall (fun info => info_connectable info = true)
    (dispatched (scanner_of (run_inputs s inputs))).
Proof.
  unfold async_start. destruct unique_id as [uid|]; [|discriminate].
  intros [= <- <-]. split; [reflexivity|].
  apply (run_inputs_invariant (fun info => info_connectable info = true) inputs).
  - reflexivity.
  - constructor.
Qed.

End ProcessingPath.

(** ** The reference host at work *)

Example sample_report_binary :
  Sample.unpackb Sample.payload_binary =
  Ok (PyDict [("mac", PyStr "AA:BB:CC");
              ("devices", PyList [PyBytes Sample.device_tuple])]).
Proof. reflexivity. Qed.

(** The example of the specification, up to the queue. *)
Example sample_report_enqueued :
  queue (snd (async_message_received (H := Sample.host) Sample.payload_binary
                (scanner_init "gw" []))) =
  [Sample.item (-56) [x01; x02]].
Proof. reflexivity. Qed.

(** A JSON text always starts with a byte that the binary decoder reads
    as a whole object, so the rest is extra data. *)
Example sample_json_is_extra_data :
  Sample.unpackb Sample.payload_json = Raise ExtraData /\
  Sample.json_loads Sample.payload_json = Ok Sample.report_list.
Proof. split; reflexivity. Qed.

Example started_by_async_start :
  async_start (Some "gw"%string) [] =
  Ok ({| reg_source := "gw"; reg_connectable := false |}, Sample.started []).
Proof. reflexivity. Qed.

Lemma json_failure_leaves_handler_witness :
  async_message_received (H := Sample.host) Sample.payload_json_cut (Sample.started []).(scanner_of) =
    (Raise JSONDecodeError,
     set_log
       (log (Sample.started []).(scanner_of) ++
          [{| level := DEBUG;
              message := "Msgpack cannot decode data: %s, try json instead" |}])
       (Sample.started []).(scanner_of)).
Proof.
  apply (json_failure_leaves_handler (H := Sample.host)); reflexivity.
Defined.

(** C1, as stated, fails: a report whose device has a payload cut short
    is followed by a good one; the parser raises [ParseError] on the
    first item, the loop task ends with it, the second item stays on the
    queue and is never dispatched, and no log record is written. *)
Lemma parse_failure_is_not_skipped :
  let s2 := run_inputs (H := Sample.host) (Sample.started [])
              [Message Sample.payload_binary_bad; Message Sample.payload_binary] in
  let s4 := run_inputs (H := Sample.host) s2 [Tick 10; Tick 20] in
  queue (scanner_of s2) =
    [Sample.item (-56) [x05; x09; x41]; Sample.item (-56) [x01; x02]]
  /\ Sample.parse_data (Sample.record (-56) [x05; x09; x41]) = Raise ParseError
  /\ Sample.parse_data (Sample.record (-56) [x01; x02]) =
     Ok (Sample.device_1, Sample.advertisement (-56) None)
  /\ task s4 = Ended ParseError
  /\ task s4 <> Running
  /\ queue (scanner_of s4) = [Sample.item (-56) [x01; x02]]
  /\ dispatched (scanner_of s4) = []
  /\ log (scanner_of s4) = log (scanner_of s2).
Proof.
  cbv zeta. repeat split; try reflexivity. discriminate.
Qed.

Lemma parse_failure_ends_loop_witness :
  let s := Sample.started [Sample.item (-56) [x05; x09; x41]; Sample.item (-56) [x01; x02]] in
  task (step (H := Sample.host) s (Tick 10)) = Ended ParseError /\
  queue (scanner_of (step (H := Sample.host) s (Tick 10))) = [Sample.item (-56) [x01; x02]] /\
  dispatched (scanner_of (step (H := Sample.host) s (Tick 10))) = dispatched (scanner_of s) /\
  log (scanner_of (step (H := Sample.host) s (Tick 10))) = log (scanner_of s) /\
  discovered_device_advertisement_datas (scanner_of (step (H := Sample.host) s (Tick 10))) =
    discovered_device_advertisement_datas (scanner_of s) /\
  discovered_device_timestamps (scanner_of (step (H := Sample.host) s (Tick 10))) =
    discovered_device_timestamps (scanner_of s) /\
  forall inputs,
    task (run_inputs (H := Sample.host) (step (H := Sample.host) s (Tick 10)) inputs) =
      Ended ParseError /\
    dispatched
      (scanner_of (run_inputs (H := Sample.host) (step (H := Sample.host) s (Tick 10)) inputs)) =
      dispatched (scanner_of s).
Proof.
  cbv zeta.
  apply (parse_failure_ends_loop (H := Sample.host)
           (Sample.started [Sample.item (-56) [x05; x09; x41]; Sample.item (-56) [x01; x02]])
           (Sample.item (-56) [x05; x09; x41]) [Sample.item (-56) [x01; x02]] 10);
    reflexivity.
Defined.

Lemma last_write_wins_witness :
  let s := Sample.started [Sample.item (-56) [x01; x02]; Sample.item (-80) [x02; x09; x41]] in
  discovered_device_advertisement_datas
    (scanner_of (run_inputs (H := Sample.host) s [Tick 10; Tick 20]))
    !! address Sample.device_1 =
    Some (Sample.device_1, Sample.advertisement (-80) (Some "A"))
  /\ discovered_device_timestamps
       (scanner_of (run_inputs (H := Sample.host) s [Tick 10; Tick 20]))
       !! address Sample.device_1 = Some 20
  /\ dispatched (scanner_of (run_inputs (H := Sample.host) s [Tick 10; Tick 20])) =
     dispatched (scanner_of s) ++
       [service_info (H := Sample.host) (Sample.item (-56) [x01; x02]) Sample.device_1
          (Sample.advertisement (-56) None) 10;
        service_info (H := Sample.host) (Sample.item (-80) [x02; x09; x41]) Sample.device_1
          (Sample.advertisement (-80) (Some "A")) 20]
  /\ queue (scanner_of (run_inputs (H := Sample.host) s [Tick 10; Tick 20])) = []
  /\ task (run_inputs (H := Sample.host) s [Tick 10; Tick 20]) = Running.
Proof.
  cbv zeta.
  apply (last_write_wins (H := Sample.host)
           (Sample.started [Sample.item (-56) [x01; x02]; Sample.item (-80) [x02; x09; x41]])
           (Sample.item (-56) [x01; x02]) (Sample.item (-80) [x02; x09; x41]) []
           10 20 Sample.device_1 Sample.device_1
           (Sample.advertisement (-56) None) (Sample.advertisement (-80) (Some "A")));
    reflexivity.
Defined.

Lemma event_name_fallback_witness :
  exists info,
    async_on_advertisement (H := Sample.host) (Sample.item (-80) [x02; x09; x41]) 20
      (scanner_init "gw" []) =
      (Ok tt,
       snd (async_on_advertisement (H := Sample.host) (Sample.item (-80) [x02; x09; x41]) 20
              (scanner_init "gw" []))) /\
    dispatched
      (snd (async_on_advertisement (H := Sample.host) (Sample.item (-80) [x02; x09; x41]) 20
              (scanner_init "gw" []))) = dispatched (scanner_init "gw" []) ++ [info] /\
    discovered_device_advertisement_datas
      (snd (async_on_advertisement (H := Sample.host) (Sample.item (-80) [x02; x09; x41]) 20
              (scanner_init "gw" [])))
      !! address Sample.device_1 =
      Some (Sample.device_1, Sample.advertisement (-80) (Some "A")) /\
    info_address info = address Sample.device_1 /\
    (forall n, present (local_name (Sample.advertisement (-80) (Some "A"))) n ->
               info_name info = n) /\
    (absent (local_name (Sample.advertisement (-80) (Some "A"))) ->
     forall n, present (name Sample.device_1) n -> info_name info = n) /\
    (absent (local_name (Sample.advertisement (-80) (Some "A"))) ->
     absent (name Sample.device_1) -> info_name info = address Sample.device_1).
Proof.
  apply (event_name_fallback (H := Sample.host) (Sample.item (-80) [x02; x09; x41]) 20
           (scanner_init "gw" []) Sample.device_1 (Sample.advertisement (-80) (Some "A"))).
  reflexivity.
Defined.

(** The three branches of the name on the reference host: a local name,
    no local name, and an empty local name. *)
Example event_names :
  map info_name
    (dispatched
       (scanner_of
          (run_inputs (H := Sample.host)
             (Sample.started
                [Sample.item (-80) [x02; x09; x41]; Sample.item (-56) [x01; x02];
                 Sample.item (-56) [x01; x09]])
             [Tick 1; Tick 2; Tick 3]))) =
  ["A"; "112233445566"; "112233445566"]%string.
Proof. reflexivity. Qed.

Lemma dispatched_events_connectable_witness :
  reg_connectable {| reg_source := "gw"; reg_connectable := false |} = false /\
  Forall (fun info => info_connectable info = true)
    (dispatched
       (scanner_of
          (run_inputs (H := Sample.host) (Sample.started [])
             [Message Sample.payload_binary; Tick 10]))).
Proof.
  apply (dispatched_events_connectable (H := Sample.host) (Some "gw"%string) []).
  reflexivity.
Defined.

(** * Further properties of the module *)

(** ** [convert_dev_to_dict] *)

Lemma binary_tuple_decompose (data : list byte) (x0 x7 : byte) :
  data !! 0%nat = Some x0 -> data !! 7%nat = Some x7 ->
  data = binary_tuple x0 (bytes_slice data 1 7) x7 (drop 8 data).
Proof.
  destruct data as [|a0 [|a1 [|a2 [|a3 [|a4 [|a5 [|a6 [|a7 rest]]]]]]]];
    try discriminate.
  intros [= <-] [= <-]. reflexivity.
Qed.

Lemma byte_to_N_inj (x y : byte) : Byte.to_N x = Byte.to_N y -> x = y.
Proof.
  intros Hxy. pose proof (Byte.of_to_N x) as Hx. rewrite Hxy, Byte.of_to_N in Hx.
  congruence.
Qed.

(** X1: a binary tuple shorter than 8 bytes raises [IndexError] (the
    RSSI is read at index 7); any longer one converts, to an adType of
    one byte, a MAC of 12 characters, an RSSI between -256 and -1, and
    the bytes from index 8 on, none when the tuple has exactly 8. *)
Theorem convert_dev_to_dict_bounds (data : list byte) :
  ((length data < 8)%nat -> convert_dev_to_dict data = Raise IndexError)
  /\ ((8 <= length data)%nat ->
      exists adtype mac rssi_value,
        convert_dev_to_dict data =
          Ok (PyList [PyInt adtype; PyStr mac; PyInt rssi_value; PyBytes (drop 8 data)]) /\
        0 <= adtype <= 255 /\
        String.length mac = 12%nat /\
        -256 <= rssi_value <= -1 /\
        length (drop 8 data) = (length data - 8)%nat).
Proof.
  split.
  - intros Hlen. unfold convert_dev_to_dict, byte_at. unfold_result.
    destruct (data !! 0%nat); [|reflexivity].
    rewrite (lookup_ge_None_2 data 7) by lia. reflexivity.
  - intros Hlen.
    destruct (lookup_lt_is_Some_2 data 0%nat) as [x0 H0]; [lia|].
    destruct (lookup_lt_is_Some_2 data 7%nat) as [x7 H7]; [lia|].
    eexists _, _, _. split; [apply (convert_dev_to_dict_ok data x0 x7 H0 H7)|].
    pose proof (byte_value_range x0). pose proof (byte_value_range x7).
    rewrite length_bytes_hex, (length_bytes_slice_mac data x7 H7), length_drop.
    repeat split; lia.
Qed.

Lemma convert_dev_to_dict_bounds_witness :
  convert_dev_to_dict [x02; x11; x22; x33; x44; x55; x66] = Raise IndexError
  /\ exists adtype mac rssi_value,
      convert_dev_to_dict [x02; x11; x22; x33; x44; x55; x66; xc8] =
        Ok (PyList [PyInt adtype; PyStr mac; PyInt rssi_value;
                    PyBytes (drop 8 [x02; x11; x22; x33; x44; x55; x66; xc8])]) /\
      0 <= adtype <= 255 /\
      String.length mac = 12%nat /\
      -256 <= rssi_value <= -1 /\
      length (drop 8 [x02; x11; x22; x33; x44; x55; x66; xc8]) =
        (length [x02; x11; x22; x33; x44; x55; x66; xc8] - 8)%nat.
Proof.
  split.
  - apply (convert_dev_to_dict_bounds [x02; x11; x22; x33; x44; x55; x66]). cbn. lia.
  - apply (convert_dev_to_dict_bounds [x02; x11; x22; x33; x44; x55; x66; xc8]). cbn. lia.
Defined.

(** X2: the layout of the binary tuple: one adType byte, six MAC bytes,
    one RSSI byte and the payload convert to the adType, the hex of the
    MAC, the RSSI byte minus 256 and the payload as it is. *)
Theorem convert_dev_to_dict_layout (adtype : byte) (mac : list byte) (rssi_byte : byte)
    (adpayload : list byte) :
  length mac = 6%nat ->
  convert_dev_to_dict (binary_tuple adtype mac rssi_byte adpayload) =
    Ok (PyList [PyInt (Z.of_N (Byte.to_N adtype)); PyStr (bytes_hex mac);
                PyInt (Z.of_N (Byte.to_N rssi_byte) - 256); PyBytes adpayload]).
Proof.
  destruct mac as [|a1 [|a2 [|a3 [|a4 [|a5 [|a6 [|a7 mac]]]]]]]; try discriminate.
  intros _. reflexivity.
Qed.

Lemma convert_dev_to_dict_layout_witness :
  convert_dev_to_dict (binary_tuple x02 [x11; x22; x33; x44; x55; x66] xc8 []) =
    Ok (PyList [PyInt (Z.of_N (Byte.to_N x02));
                PyStr (bytes_hex [x11; x22; x33; x44; x55; x66]);
                PyInt (Z.of_N (Byte.to_N xc8) - 256); PyBytes []]).
Proof.
  apply (convert_dev_to_dict_layout x02 [x11; x22; x33; x44; x55; x66] xc8 []).
  reflexivity.
Defined.

(** X3: the conversion loses nothing: two binary tuples with the same
    record are the same bytes. *)
Theorem convert_dev_to_dict_injective (data1 data2 : list byte) (r : pyval) :
  convert_dev_to_dict data1 = Ok r -> convert_dev_to_dict data2 = Ok r -> data1 = data2.
Proof.
  intros H1 H2.
  destruct (convert_dev_to_dict_inv data1 r H1) as (x0 & x7 & H10 & H17).
  destruct (convert_dev_to_dict_inv data2 r H2) as (y0 & y7 & H20 & H27).
  rewrite (convert_dev_to_dict_ok data1 x0 x7 H10 H17) in H1.
  rewrite (convert_dev_to_dict_ok data2 y0 y7 H20 H27) in H2.
  rewrite <- H2 in H1. injection H1 as Ht Hmac Hrssi Hadv.
  rewrite (binary_tuple_decompose data1 x0 x7 H10 H17).
  rewrite (binary_tuple_decompose data2 y0 y7 H20 H27).
  assert (Hslice : bytes_slice data1 1 7 = bytes_slice data2 1 7).
  { pose proof (bytes_fromhex_hex (bytes_slice data1 1 7)) as Hd.
    rewrite Hmac, bytes_fromhex_hex in Hd. congruence. }
  rewrite Hslice, Hadv.
  rewrite (byte_to_N_inj x0 y0) by lia. rewrite (byte_to_N_inj x7 y7) by lia.
  reflexivity.
Qed.

Lemma convert_dev_to_dict_injective_witness :
  binary_tuple x02 [x11; x22; x33; x44; x55; x66] xc8 [x01; x02] =
  [x02; x11; x22; x33; x44; x55; x66; xc8; x01; x02].
Proof.
  apply (convert_dev_to_dict_injective _ _
           (PyList [PyInt 2; PyStr "112233445566"; PyInt (-56); PyBytes [x01; x02]]));
    reflexivity.
Defined.

(** ** The list-form branch *)

Lemma normalize_list_unfold (dev : list pyval) :
  normalize (PyList dev) =
  match dev !! 1%nat with
  | None => Raise IndexError
  | Some mac =>
      match py_lower mac with
      | Raise e => Raise e
      | Ok low =>
          match dev !! 3%nat with
          | None => Raise IndexError
          | Some hexs =>
              match py_bytes_fromhex hexs with
              | Raise e => Raise e
              | Ok adv => Ok (PyList (<[3%nat := adv]> (<[1%nat := low]> dev)))
              end
          end
      end
  end.
Proof.
  unfold normalize, normalize_list_entry, INDEX_MAC, INDEX_ADV. unfold_result.
  cbn [py_getitem].
  destruct (dev !! 1%nat) as [mac|] eqn:H1; [|reflexivity].
  destruct (py_lower mac) as [low|e]; [|reflexivity].
  cbn [py_setitem]. rewrite decide_True by (apply lookup_lt_Some in H1; lia).
  cbn [py_getitem]. rewrite list_lookup_insert_ne by lia.
  destruct (dev !! 3%nat) as [hexs|] eqn:H3; [|reflexivity].
  destruct (py_bytes_fromhex hexs) as [adv|e]; [|reflexivity].
  cbn [py_setitem].
  rewrite decide_True by (rewrite length_insert; apply lookup_lt_Some in H3; lia).
  reflexivity.
Qed.

Lemma py_lower_str_or_bytes (mac : pyval) :
  is_str_or_bytes mac = true ->
  exists low, py_lower mac = Ok low /\ is_str_or_bytes low = true.
Proof. destruct mac; try discriminate; intros _; eexists; split; reflexivity. Qed.

(** X4: what the list-form branch does with an entry.  It raises
    [IndexError] on a list of fewer than two elements, or of fewer than
    four when the MAC is fine; [AttributeError] on a MAC that is neither
    a [str] nor [bytes]; [TypeError] on a payload that is not a [str];
    [ValueError] on a payload that is not hex.  Otherwise it returns the
    list with the MAC lowercased and the payload decoded, the other
    elements (also those after the fourth) as they came. *)
Theorem list_entry_outcomes (dev : list pyval) :
  ((length dev <= 1)%nat -> normalize (PyList dev) = Raise IndexError)
  /\ (forall mac,
        dev !! 1%nat = Some mac -> is_str_or_bytes mac = false ->
        normalize (PyList dev) = Raise AttributeError)
  /\ (forall mac,
        dev !! 1%nat = Some mac -> is_str_or_bytes mac = true -> (length dev <= 3)%nat ->
        normalize (PyList dev) = Raise IndexError)
  /\ (forall mac hexs,
        dev !! 1%nat = Some mac -> is_str_or_bytes mac = true ->
        dev !! 3%nat = Some hexs -> is_str hexs = false ->
        normalize (PyList dev) = Raise TypeError)
  /\ (forall mac s e,
        dev !! 1%nat = Some mac -> is_str_or_bytes mac = true ->
        dev !! 3%nat = Some (PyStr s) -> bytes_fromhex s = Raise e ->
        normalize (PyList dev) = Raise ValueError)
  /\ (forall mac low s adv,
        dev !! 1%nat = Some mac -> py_lower mac = Ok low ->
        dev !! 3%nat = Some (PyStr s) -> bytes_fromhex s = Ok adv ->
        normalize (PyList dev) =
          Ok (PyList (<[3%nat := PyBytes adv]> (<[1%nat := low]> dev))) /\
        length (<[3%nat := PyBytes adv]> (<[1%nat := low]> dev)) = length dev /\
        forall i, i <> 1%nat -> i <> 3%nat ->
          <[3%nat := PyBytes adv]> (<[1%nat := low]> dev) !! i = dev !! i).
Proof.
  rewrite normalize_list_unfold. split; [|split; [|split; [|split; [|split]]]].
  - intros Hlen. rewrite (lookup_ge_None_2 dev 1) by lia. reflexivity.
  - intros mac -> Hmac. destruct mac; try discriminate; reflexivity.
  - intros mac -> Hmac Hlen.
    destruct (py_lower_str_or_bytes mac Hmac) as (low & -> & _).
    rewrite (lookup_ge_None_2 dev 3) by lia. reflexivity.
  - intros mac hexs -> Hmac -> Hhexs.
    destruct (py_lower_str_or_bytes mac Hmac) as (low & -> & _).
    destruct hexs; try discriminate; reflexivity.
  - intros mac s e -> Hmac -> Hs.
    destruct (py_lower_str_or_bytes mac Hmac) as (low & -> & _).
    cbn [py_bytes_fromhex]. unfold_result. rewrite Hs.
    rewrite (bytes_fromhex_raise s e Hs). reflexivity.
  - intros mac low s adv -> -> -> Hs. cbn [py_bytes_fromhex]. unfold_result.
    rewrite Hs. split; [reflexivity|]. split.
    + rewrite !length_insert. reflexivity.
    + intros i Hi1 Hi3. rewrite !list_lookup_insert_ne by congruence. reflexivity.
Qed.

Lemma list_entry_outcomes_witness :
  normalize (PyList [PyInt 0]) = Raise IndexError
  /\ normalize (PyList [PyInt 0; PyInt 1; PyInt (-50); PyStr "0201"]) = Raise AttributeError
  /\ normalize (PyList [PyInt 0; PyStr "F0C77F1D23A4"; PyInt (-50)]) = Raise IndexError
  /\ normalize (PyList [PyInt 0; PyStr "F0C77F1D23A4"; PyInt (-50); PyNone]) = Raise TypeError
  /\ normalize (PyList [PyInt 0; PyStr "F0C77F1D23A4"; PyInt (-50); PyStr "02010"]) =
     Raise ValueError
  /\ normalize (PyList [PyInt 0; PyStr "F0C77F1D23A4"; PyInt (-50); PyStr "0201"; PyInt 7]) =
     Ok (PyList (<[3%nat := PyBytes [x02; x01]]>
                   (<[1%nat := PyStr "f0c77f1d23a4"]>
                      [PyInt 0; PyStr "F0C77F1D23A4"; PyInt (-50); PyStr "0201"; PyInt 7]))).
Proof.
  split; [|split; [|split; [|split; [|split]]]].
  - apply (list_entry_outcomes [PyInt 0]). cbn. lia.
  - apply (list_entry_outcomes [PyInt 0; PyInt 1; PyInt (-50); PyStr "0201"] ) with (mac := PyInt 1);
      reflexivity.
  - apply (list_entry_outcomes [PyInt 0; PyStr "F0C77F1D23A4"; PyInt (-50)])
      with (mac := PyStr "F0C77F1D23A4"); [reflexivity|reflexivity|cbn; lia].
  - apply (list_entry_outcomes [PyInt 0; PyStr "F0C77F1D23A4"; PyInt (-50); PyNone])
      with (mac := PyStr "F0C77F1D23A4") (hexs := PyNone); reflexivity.
  - apply (list_entry_outcomes [PyInt 0; PyStr "F0C77F1D23A4"; PyInt (-50); PyStr "02010"])
      with (mac := PyStr "F0C77F1D23A4") (s := "02010"%string) (e := ValueError); reflexivity.
  - apply (list_entry_outcomes
             [PyInt 0; PyStr "F0C77F1D23A4"; PyInt (-50); PyStr "0201"; PyInt 7])
      with (mac := PyStr "F0C77F1D23A4") (s := "0201"%string); reflexivity.
Defined.

(** X5: a normalised record is not an entry of either wire shape any
    more: normalising it again raises [TypeError], as its payload is
    [bytes] and no longer a hex string. *)
Theorem normalize_twice_raises (dev r : pyval) :
  normalize dev = Ok r -> normalize r = Raise TypeError.
Proof.
  intros Hn. destruct (normalize_shape dev r Hn) as [[b ->] | [l ->]].
  - cbn [normalize] in Hn.
    destruct (convert_dev_to_dict_inv b r Hn) as (x0 & x7 & H0 & H7).
    rewrite (convert_dev_to_dict_ok b x0 x7 H0 H7) in Hn. injection Hn as <-.
    rewrite normalize_list_unfold. reflexivity.
  - destruct (normalize_list_entry_inv l r Hn)
      as (mac & low & hexs & adv & H1 & Hlow & H3 & Hadv & ->).
    rewrite normalize_list_unfold.
    rewrite list_lookup_insert_ne by lia.
    rewrite list_lookup_insert_eq by (apply lookup_lt_Some in H1; lia).
    assert (Hlow' : exists low', py_lower low = Ok low').
    { destruct mac; try discriminate; injection Hlow as <-; eexists; reflexivity. }
    destruct Hlow' as [low' ->].
    rewrite list_lookup_insert_eq
      by (rewrite length_insert; apply lookup_lt_Some in H3; lia).
    destruct hexs; try discriminate. cbn [py_bytes_fromhex] in Hadv. unfold_result.
    destruct (bytes_fromhex s); [|discriminate]. injection Hadv as <-. reflexivity.
Qed.

Lemma normalize_twice_raises_witness :
  normalize (PyList [PyInt 2; PyStr "112233445566"; PyInt (-56); PyBytes [x01; x02]]) =
  Raise TypeError.
Proof.
  apply (normalize_twice_raises
           (PyBytes [x02; x11; x22; x33; x44; x55; x66; xc8; x01; x02])).
  reflexivity.
Defined.

(** ** Reports *)

Lemma put_devices_all (gateway : pyval) (devs records : list pyval) :
  Forall2 (fun dev r => normalize dev = Ok r) devs records ->
  forall st,
    put_devices gateway devs st =
      (Ok tt, set_queue (queue st ++ queue_items gateway records) st).
Proof.
  induction 1 as [|dev r devs records Hr _ IH]; intros st.
  - cbn. unfold hret. rewrite set_queue_app_nil. reflexivity.
  - cbn [put_devices queue_items map]. unfold_handler. rewrite Hr, IH.
    fold (queue_items gateway records).
    rewrite (set_queue_app_app st [_] (queue_items gateway records)). reflexivity.
Qed.

Lemma put_devices_until_bad (gateway : pyval) (good records : list pyval)
    (bad : pyval) (later : list pyval) (e : exn) :
  Forall2 (fun dev r => normalize dev = Ok r) good records ->
  normalize bad = Raise e ->
  forall st,
    put_devices gateway (good ++ bad :: later) st =
      (Raise e, set_queue (queue st ++ queue_items gateway records) st).
Proof.
  intros Hgood Hbad. induction Hgood as [|dev r devs records Hr _ IH]; intros st.
  - cbn [app put_devices queue_items map]. unfold_handler.
    rewrite Hbad, set_queue_app_nil. reflexivity.
  - cbn [app put_devices queue_items map]. unfold_handler. rewrite Hr, IH.
    fold (queue_items gateway records).
    rewrite (set_queue_app_app st [_] (queue_items gateway records)). reflexivity.
Qed.

Section Reports.
Context `{Host}.

(** X6: a report whose entries all normalise puts one item per entry on
    the queue, after the items already there and in the order of the
    report, each with the gateway id of the report, and returns [True]. *)
Theorem report_enqueued_in_order (data gateway : pyval) (devs records : list pyval)
    (st : scanner) :
  py_get data "mac" PyNone = Ok gateway ->
  py_get data "devices" (PyList []) = Ok (PyList devs) ->
  Forall2 (fun dev r => normalize dev = Ok r) devs records ->
  async_process_discovery_data data st =
    (Ok true, set_queue (queue st ++ queue_items gateway records) st).
Proof.
  intros Hmac Hdevices Hall. unfold async_process_discovery_data. unfold_handler.
  rewrite Hmac, Hdevices. cbn [py_iter].
  rewrite (put_devices_all gateway devs records Hall). reflexivity.
Qed.

(** X7: a report stops at its first entry that does not normalise: the
    entries before it are on the queue, the exception of the entry is
    raised, and the entries after it are not looked at. *)
Theorem report_stops_at_bad_entry (data gateway : pyval) (good records : list pyval)
    (bad : pyval) (later : list pyval) (e : exn) (st : scanner) :
  py_get data "mac" PyNone = Ok gateway ->
  py_get data "devices" (PyList []) = Ok (PyList (good ++ bad :: later)) ->
  Forall2 (fun dev r => normalize dev = Ok r) good records ->
  normalize bad = Raise e ->
  async_process_discovery_data data st =
    (Raise e, set_queue (queue st ++ queue_items gateway records) st).
Proof.
  intros Hmac Hdevices Hgood Hbad. unfold async_process_discovery_data. unfold_handler.
  rewrite Hmac, Hdevices. cbn [py_iter].
  rewrite (put_devices_until_bad gateway good records bad later e Hgood Hbad). reflexivity.
Qed.

(** X8: keys of the report.  Without a "devices" key the report is
    processed as an empty one; with "devices" set to [None] the loop
    raises [TypeError]; without a "mac" key the items carry [None] as
    their gateway id.  In the first two cases the queue is untouched. *)
Theorem report_keys (d : list (string * pyval)) (st : scanner) :
  (dict_lookup "devices" d = None ->
   async_process_discovery_data (PyDict d) st = (Ok true, st))
  /\ (dict_lookup "devices" d = Some PyNone ->
      async_process_discovery_data (PyDict d) st = (Raise TypeError, st))
  /\ (forall devs records,
        dict_lookup "mac" d = None ->
        dict_lookup "devices" d = Some (PyList devs) ->
        Forall2 (fun dev r => normalize dev = Ok r) devs records ->
        async_process_discovery_data (PyDict d) st =
          (Ok true, set_queue (queue st ++ queue_items PyNone records) st)).
Proof.
  split; [|split].
  - intros Hd. unfold async_process_discovery_data. unfold_handler.
    cbn [py_get]. rewrite Hd. reflexivity.
  - intros Hd. unfold async_process_discovery_data. unfold_handler.
    cbn [py_get]. rewrite Hd. reflexivity.
  - intros devs records Hmac Hd Hall. unfold async_process_discovery_data. unfold_handler.
    cbn [py_get]. rewrite Hmac, Hd. cbn [default from_option id py_iter].
    rewrite (put_devices_all PyNone devs records Hall). reflexivity.
Qed.

End Reports.

Lemma report_enqueued_in_order_witness :
  async_process_discovery_data Sample.report_list (scanner_init "gw" [Sample.item (-80) []]) =
    (Ok true,
     set_queue
       (queue (scanner_init "gw" [Sample.item (-80) []]) ++
          queue_items (PyStr "AA:BB:CC") [Sample.record (-56) [x01; x02]])
       (scanner_init "gw" [Sample.item (-80) []])).
Proof.
  apply (report_enqueued_in_order Sample.report_list (PyStr "AA:BB:CC")
           [PyList [PyInt 2; PyStr "112233445566"; PyInt (-56); PyStr "0102"]]
           [Sample.record (-56) [x01; x02]]).
  - reflexivity.
  - reflexivity.
  - constructor; [reflexivity|constructor].
Defined.

Lemma report_stops_at_bad_entry_witness :
  async_process_discovery_data
    (PyDict [("mac", PyStr "AA:BB:CC");
             ("devices",
              PyList ([PyBytes Sample.device_tuple] ++
                      PyList [PyInt 2; PyStr "112233445566"; PyInt (-56); PyStr "zz"]
                      :: [PyBytes Sample.device_tuple]))])
    (scanner_init "gw" []) =
    (Raise ValueError,
     set_queue
       (queue (scanner_init "gw" []) ++
          queue_items (PyStr "AA:BB:CC") [Sample.record (-56) [x01; x02]])
       (scanner_init "gw" [])).
Proof.
  apply (report_stops_at_bad_entry _ (PyStr "AA:BB:CC") [PyBytes Sample.device_tuple]
           [Sample.record (-56) [x01; x02]]
           (PyList [PyInt 2; PyStr "112233445566"; PyInt (-56); PyStr "zz"])
           [PyBytes Sample.device_tuple] ValueError).
  - reflexivity.
  - reflexivity.
  - constructor; [reflexivity|constructor].
  - reflexivity.
Defined.

Lemma report_keys_witness :
  async_process_discovery_data (PyDict [("mac", PyStr "AA:BB:CC")]) (scanner_init "gw" []) =
    (Ok true, scanner_init "gw" [])
  /\ async_process_discovery_data
       (PyDict [("mac", PyStr "AA:BB:CC"); ("devices", PyNone)]) (scanner_init "gw" []) =
     (Raise TypeError, scanner_init "gw" [])
  /\ async_process_discovery_data
       (PyDict [("devices", PyList [PyBytes Sample.device_tuple])]) (scanner_init "gw" []) =
     (Ok true,
      set_queue
        (queue (scanner_init "gw" []) ++ queue_items PyNone [Sample.record (-56) [x01; x02]])
        (scanner_init "gw" [])).
Proof.
  split; [|split].
  - apply (report_keys [("mac", PyStr "AA:BB:CC")]). reflexivity.
  - apply (report_keys [("mac", PyStr "AA:BB:CC"); ("devices", PyNone)]). reflexivity.
  - apply (report_keys [("devices", PyList [PyBytes Sample.device_tuple])])
      with (devs := [PyBytes Sample.device_tuple]).
    + reflexivity.
    + reflexivity.
    + constructor; [reflexivity|constructor].
Defined.

(** ** The message handler *)

Lemma normalize_entry_error (dev : pyval) (e : exn) :
  normalize dev = Raise e -> is_entry_error e = true.
Proof.
  destruct dev as [| | | s | b | l | d]; cbn [normalize].
  1-4, 7: unfold normalize_list_entry, INDEX_MAC; unfold_result; cbn [py_getitem];
    try (intros [= <-]; reflexivity).
  - destruct (str_chars s !! 1%nat) as [c|]; [|intros [= <-]; reflexivity].
    destruct (py_lower c) as [low|e'] eqn:Hlow.
    + cbn [py_setitem]. intros [= <-]. reflexivity.
    + intros [= <-]. destruct c; cbn in Hlow; try discriminate;
        injection Hlow as <-; reflexivity.
  - unfold convert_dev_to_dict, byte_at. unfold_result.
    destruct (b !! 0%nat); [|intros [= <-]; reflexivity].
    destruct (b !! 7%nat); [discriminate|intros [= <-]; reflexivity].
  - change (normalize_list_entry (PyList l)) with (normalize (PyList l)).
    rewrite normalize_list_unfold.
    destruct (l !! 1%nat) as [mac|]; [|intros [= <-]; reflexivity].
    destruct (py_lower mac) as [low|e'] eqn:Hlow.
    2: { intros [= <-]. destruct mac; cbn in Hlow; try discriminate;
           injection Hlow as <-; reflexivity. }
    destruct (l !! 3%nat) as [hexs|]; [|intros [= <-]; reflexivity].
    destruct (py_bytes_fromhex hexs) as [adv|e'] eqn:Hadv; [discriminate|].
    intros [= <-]. destruct hexs; cbn in Hadv; try (injection Hadv as <-; reflexivity).
    unfold_result. destruct (bytes_fromhex s) as [bs|e''] eqn:Hs; [discriminate|].
    injection Hadv as <-. rewrite (bytes_fromhex_raise s e'' Hs). reflexivity.
Qed.

Section MessageHandler.
Context `{Host}.

(** X9: a payload that decodes to something other than a dict (an
    integer, a list, a string) makes the handler raise
    [AttributeError], on the binary path and on the JSON path: no
    clause of the [try] is for it.  Nothing is put on the queue. *)
Theorem report_not_a_dict_raises (payload : list byte) (data : pyval) (st : scanner) :
  is_dict data = false ->
  (unpackb payload = Ok data ->
   async_message_received payload st = (Raise AttributeError, st))
  /\ (unpackb payload = Raise ExtraData -> json_loads payload = Ok data ->
      fst (async_message_received payload st) = Raise AttributeError /\
      queue (snd (async_message_received payload st)) = queue st).
Proof.
  intros Hdict.
  assert (Hget : forall k dflt, py_get data k dflt = Raise AttributeError).
  { intros k dflt. destruct data; try discriminate; reflexivity. }
  split.
  - intros Hbin. unfold async_message_received, async_process_discovery_data.
    unfold_handler. rewrite Hbin, Hget. reflexivity.
  - intros Hbin Hjson. unfold async_message_received. unfold_handler.
    rewrite Hbin. cbn [isinstance_ExtraData]. rewrite Hjson, Hget. split; reflexivity.
Qed.

Lemma put_devices_outcome (gateway : pyval) (devs : list pyval) :
  forall st,
    fst (put_devices gateway devs st) = Ok tt \/
    exists e, fst (put_devices gateway devs st) = Raise e /\ is_entry_error e = true.
Proof.
  induction devs as [|dev devs IH]; intros st; [left; reflexivity|].
  cbn [put_devices]. unfold_handler.
  destruct (normalize dev) as [d|e] eqn:Hd.
  - apply IH.
  - right. exists e. split; [reflexivity|]. apply (normalize_entry_error dev e Hd).
Qed.

(** A report is processed to the end and gives [True], or an exception
    of one of its entries or of its shape is raised. *)
Lemma async_process_discovery_data_outcome (data : pyval) (st : scanner) :
  fst (async_process_discovery_data data st) = Ok true \/
  exists e, fst (async_process_discovery_data data st) = Raise e /\ is_entry_error e = true.
Proof.
  unfold async_process_discovery_data. unfold_handler.
  destruct (py_get data "mac" PyNone) as [gateway|e] eqn:Hmac.
  2: { right. exists e. split; [reflexivity|].
       destruct data; cbn in Hmac; try discriminate; injection Hmac as <-; reflexivity. }
  destruct (py_get data "devices" (PyList [])) as [devices|e] eqn:Hdevices.
  2: { right. exists e. split; [reflexivity|].
       destruct data; cbn in Hdevices; try discriminate; injection Hdevices as <-;
         reflexivity. }
  destruct (py_iter devices) as [devs|e] eqn:Hdevs.
  2: { right. exists e. split; [reflexivity|].
       destruct devices; cbn in Hdevs; try discriminate; injection Hdevs as <-;
         reflexivity. }
  destruct (put_devices_outcome gateway devs st) as [Hok | (e & He & Hkind)].
  - left. destruct (put_devices gateway devs st) as [[[]|e] st']; [reflexivity|discriminate].
  - right. exists e. split; [|exact Hkind].
    destruct (put_devices gateway devs st) as [[[]|e'] st']; [discriminate|].
    cbn in He. injection He as ->. reflexivity.
Qed.

(** X10: a [UnicodeDecodeError] of the binary decoder is the one
    failure the handler takes in: it logs a debug record and returns,
    without trying JSON and without touching the queue.  Whenever the
    handler returns otherwise, no failure has occurred: a report was
    decoded, on the binary path or after extra data on the JSON path,
    and processed to the end. *)
Theorem unicode_error_is_dropped (payload : list byte) (st : scanner) :
  (unpackb payload = Raise UnicodeDecodeError ->
   async_message_received payload st =
     (Ok tt,
      set_log (log st ++ [{| level := DEBUG; message := "Cannot decode data: %s" |}]) st))
  /\ (fst (async_message_received payload st) = Ok tt ->
      unpackb payload = Raise UnicodeDecodeError
      \/ (exists data,
            unpackb payload = Ok data /\
            fst (async_process_discovery_data data st) = Ok true)
      \/ (unpackb payload = Raise ExtraData /\
          exists data,
            json_loads payload = Ok data /\
            fst (async_process_discovery_data data st) = Ok true)).
Proof.
  split.
  - intros Hbin. unfold async_message_received. unfold_handler. rewrite Hbin. reflexivity.
  - unfold async_message_received. unfold_handler.
    destruct (unpackb payload) as [data|e] eqn:Hbin.
    + intros Hret. right. left. exists data. split; [reflexivity|].
      destruct (async_process_discovery_data_outcome data st) as [Hok | (e & He & Hkind)];
        [exact Hok|].
      exfalso. destruct (async_process_discovery_data data st) as [[b|e'] st'];
        [discriminate|].
      cbn in He. injection He as ->. destruct e; try discriminate Hkind; discriminate Hret.
    + destruct e; cbn [isinstance_ExtraData isinstance_UnicodeDecodeError
                       isinstance_ValueError]; try (intros Hret; discriminate Hret).
      * intros Hret. right. right. split; [reflexivity|].
        destruct (json_loads payload) as [data|e']; [|discriminate Hret].
        exists data. split; [reflexivity|].
        destruct (py_get data "mac" PyNone) as [gateway|e']; [|discriminate Hret].
        destruct (async_process_discovery_data_spec data) as (r & items & _ & Hspec).
        rewrite Hspec in Hret. rewrite Hspec. cbn [fst].
        destruct (async_process_discovery_data_outcome data st) as [Hok | (e' & He' & _)].
        -- rewrite Hspec in Hok. exact Hok.
        -- rewrite Hspec in He'. cbn in He'. subst r. discriminate Hret.
      * intros _. left. reflexivity.
Qed.

(** X11: the two paths differ on a report with a bad entry.  On the
    binary path the exception of the entry meets the clauses of the
    [try]: a [ValueError] (a payload that is not hex) comes out as
    [NameError], the others as they are.  On the JSON path the
    exception always comes out as it is.  On both, the entries before
    the bad one are on the queue. *)
Theorem bad_entry_on_both_paths (payload : list byte) (data gateway : pyval)
    (good records : list pyval) (bad : pyval) (later : list pyval) (e : exn)
    (st : scanner) :
  py_get data "mac" PyNone = Ok gateway ->
  py_get data "devices" (PyList []) = Ok (PyList (good ++ bad :: later)) ->
  Forall2 (fun dev r => normalize dev = Ok r) good records ->
  normalize bad = Raise e ->
  (unpackb payload = Ok data ->
   async_message_received payload st =
     (Raise (if isinstance_ValueError e then NameError else e),
      set_queue (queue st ++ queue_items gateway records) st))
  /\ (unpackb payload = Raise ExtraData -> json_loads payload = Ok data ->
      fst (async_message_received payload st) = Raise e /\
      queue (snd (async_message_received payload st)) =
        queue st ++ queue_items gateway records).
Proof.
  intros Hmac Hdevices Hgood Hbad.
  assert (Hproc : forall st0,
             async_process_discovery_data data st0 =
               (Raise e, set_queue (queue st0 ++ queue_items gateway records) st0)).
  { intros st0. unfold async_process_discovery_data. unfold_handler.
    rewrite Hmac, Hdevices. cbn [py_iter].
    rewrite (put_devices_until_bad gateway good records bad later e Hgood Hbad).
    reflexivity. }
  pose proof (normalize_entry_error bad e Hbad) as Hkind.
  split.
  - intros Hbin. unfold async_message_received. unfold_handler.
    rewrite Hbin, Hproc.
    destruct e; try discriminate; reflexivity.
  - intros Hbin Hjson. unfold async_message_received. unfold_handler.
    rewrite Hbin. cbn [isinstance_ExtraData]. rewrite Hjson, Hmac.
    rewrite Hproc. split; reflexivity.
Qed.

Lemma queue_and_log_grow_refl (st : scanner) : queue_and_log_grow st st.
Proof.
  unfold queue_and_log_grow. split; [exists []; rewrite app_nil_r; reflexivity|].
  split; [exists []; rewrite app_nil_r; reflexivity|]. auto.
Qed.

Lemma queue_and_log_grow_trans (st1 st2 st3 : scanner) :
  queue_and_log_grow st1 st2 -> queue_and_log_grow st2 st3 -> queue_and_log_grow st1 st3.
Proof.
  intros ([i1 Hq1] & [r1 Hl1] & Hs1 & Ha1 & Ht1 & Hd1)
         ([i2 Hq2] & [r2 Hl2] & Hs2 & Ha2 & Ht2 & Hd2).
  unfold queue_and_log_grow.
  split; [exists (i1 ++ i2); rewrite Hq2, Hq1, app_assoc; reflexivity|].
  split; [exists (r1 ++ r2); rewrite Hl2, Hl1, app_assoc; reflexivity|].
  repeat split; congruence.
Qed.

Lemma queue_and_log_grow_queue (st : scanner) (items : list QueueItem) :
  queue_and_log_grow st (set_queue (queue st ++ items) st).
Proof.
  unfold queue_and_log_grow. cbn. split; [eauto|].
  split; [exists []; rewrite app_nil_r; reflexivity|]. auto.
Qed.

Lemma queue_and_log_grow_log (st : scanner) (records : list log_record) :
  queue_and_log_grow st (set_log (log st ++ records) st).
Proof.
  unfold queue_and_log_grow. cbn. split; [exists []; rewrite app_nil_r; reflexivity|].
  split; [eauto|]. auto.
Qed.

Lemma async_message_received_grows (payload : list byte) (st : scanner) :
  queue_and_log_grow st (snd (async_message_received payload st)).
Proof.
  unfold async_message_received. unfold_handler.
  destruct (unpackb payload) as [data|e].
  - destruct (async_process_discovery_data_spec data) as (r & items & Hr & Hspec).
    rewrite Hspec. destruct r as [b|e]; [apply queue_and_log_grow_queue|].
    rewrite (Hr e eq_refl).
    destruct (isinstance_UnicodeDecodeError e), (isinstance_ValueError e); cbn [snd];
      try apply queue_and_log_grow_queue.
    all: eapply queue_and_log_grow_trans;
      [apply queue_and_log_grow_queue|apply queue_and_log_grow_log].
  - destruct (isinstance_ExtraData e).
    + destruct (json_loads payload) as [data|e']; [|apply queue_and_log_grow_log].
      destruct (py_get data "mac" PyNone) as [gateway|e']; [|apply queue_and_log_grow_log].
      destruct (async_process_discovery_data_spec data) as (r & items & Hr & Hspec).
      rewrite Hspec.
      assert (Hgrow : queue_and_log_grow st
                (set_queue
                   (queue
                      (set_log
                         (log
                            (set_log
                               (log st ++
                                [{| level := DEBUG;
                                    message :=
                                      "Msgpack cannot decode data: %s, try json instead" |}])
                               st) ++
                          [{| level := DEBUG; message := "JSON data: %s" |}])
                         (set_log
                            (log st ++
                             [{| level := DEBUG;
                                 message :=
                                   "Msgpack cannot decode data: %s, try json instead" |}])
                            st)) ++ items)
                   (set_log
                      (log
                         (set_log
                            (log st ++
                             [{| level := DEBUG;
                                 message :=
                                   "Msgpack cannot decode data: %s, try json instead" |}])
                            st) ++
                       [{| level := DEBUG; message := "JSON data: %s" |}])
                      (set_log
                         (log st ++
                          [{| level := DEBUG;
                              message :=
                                "Msgpack cannot decode data: %s, try json instead" |}])
                         st)))).
      { eapply queue_and_log_grow_trans; [apply queue_and_log_grow_log|].
        eapply queue_and_log_grow_trans; [apply queue_and_log_grow_log|].
        apply queue_and_log_grow_queue. }
      destruct r; exact Hgrow.
    + destruct (isinstance_UnicodeDecodeError e), (isinstance_ValueError e); cbn [snd];
        try apply queue_and_log_grow_refl; apply queue_and_log_grow_log.
Qed.

(** X12: whatever the payload and however the handler ends, a message
    only adds: items at the end of the queue and records at the end of
    the log.  It never dispatches an event, never touches the two
    dictionaries, and never removes an item or a record. *)
Theorem message_only_adds (payload : list byte) (st : scanner) :
  exists items records,
    queue (snd (async_message_received payload st)) = queue st ++ items /\
    log (snd (async_message_received payload st)) = log st ++ records /\
    dispatched (snd (async_message_received payload st)) = dispatched st /\
    discovered_device_advertisement_datas (snd (async_message_received payload st)) =
      discovered_device_advertisement_datas st /\
    discovered_device_timestamps (snd (async_message_received payload st)) =
      discovered_device_timestamps st /\
    source (snd (async_message_received payload st)) = source st.
Proof.
  destruct (async_message_received_grows payload st)
    as ([items Hq] & [records Hl] & Hs & Ha & Ht & Hd).
  exists items, records. auto 10.
Qed.

End MessageHandler.

Lemma report_not_a_dict_raises_witness :
  async_message_received (H := Sample.host) [x7b] (scanner_init "gw" []) =
    (Raise AttributeError, scanner_init "gw" [])
  /\ fst (async_message_received (H := Sample.host) (Sample.json_bytes "[1, 2]")
            (scanner_init "gw" [])) = Raise AttributeError
  /\ queue (snd (async_message_received (H := Sample.host) (Sample.json_bytes "[1, 2]")
                   (scanner_init "gw" []))) = queue (scanner_init "gw" []).
Proof.
  split.
  - apply (report_not_a_dict_raises (H := Sample.host) [x7b] (PyInt 123)); reflexivity.
  - apply (report_not_a_dict_raises (H := Sample.host) (Sample.json_bytes "[1, 2]")
             (PyList [PyInt 1; PyInt 2])); reflexivity.
Defined.

Lemma unicode_error_is_dropped_witness :
  async_message_received (H := SampleText.host) [xa1; xff] (scanner_init "gw" []) =
    (Ok tt,
     set_log
       (log (scanner_init "gw" []) ++
          [{| level := DEBUG; message := "Cannot decode data: %s" |}])
       (scanner_init "gw" [])).
Proof.
  destruct (unicode_error_is_dropped (H := SampleText.host) [xa1; xff]
              (scanner_init "gw" [])) as [Habsorbed _].
  apply Habsorbed. reflexivity.
Defined.

(** A report with a good entry and then an entry whose payload is not
    hex: as MessagePack the handler raises [NameError], as JSON text
    [ValueError]. *)
Lemma bad_entry_on_both_paths_witness :
  let data :=
    PyDict [("mac", PyStr "AA:BB:CC");
            ("devices",
             PyList ([PyList [PyInt 2; PyStr "112233445566"; PyInt (-56); PyStr "0102"]] ++
                     PyList [PyInt 2; PyStr "112233445566"; PyInt (-56); PyStr "zz"] :: []))] in
  let payload_bin :=
    Sample.report_header ++ [x92; x94; x02; xac] ++ Sample.ascii_bytes "112233445566" ++
    [xd0; xc8; xa4] ++ Sample.ascii_bytes "0102" ++
    [x94; x02; xac] ++ Sample.ascii_bytes "112233445566" ++
    [xd0; xc8; xa2] ++ Sample.ascii_bytes "zz" in
  let payload_json :=
    Sample.json_bytes
      "{'mac':'AA:BB:CC','devices':[[2,'112233445566',-56,'0102'],[2,'112233445566',-56,'zz']]}" in
  async_message_received (H := Sample.host) payload_bin (scanner_init "gw" []) =
    (Raise (if isinstance_ValueError ValueError then NameError else ValueError),
     set_queue
       (queue (scanner_init "gw" []) ++
          queue_items (PyStr "AA:BB:CC") [Sample.record (-56) [x01; x02]])
       (scanner_init "gw" []))
  /\ fst (async_message_received (H := Sample.host) payload_json (scanner_init "gw" [])) =
     Raise ValueError
  /\ queue (snd (async_message_received (H := Sample.host) payload_json
                   (scanner_init "gw" []))) =
     queue (scanner_init "gw" []) ++
       queue_items (PyStr "AA:BB:CC") [Sample.record (-56) [x01; x02]].
Proof.
  intros data payload_bin payload_json.
  pose proof (bad_entry_on_both_paths (H := Sample.host)) as Hpaths.
  split.
  - apply (Hpaths payload_bin data (PyStr "AA:BB:CC")
             [PyList [PyInt 2; PyStr "112233445566"; PyInt (-56); PyStr "0102"]]
             [Sample.record (-56) [x01; x02]]
             (PyList [PyInt 2; PyStr "112233445566"; PyInt (-56); PyStr "zz"]) []
             ValueError (scanner_init "gw" [])); try reflexivity.
    constructor; [reflexivity|constructor].
  - apply (Hpaths payload_json data (PyStr "AA:BB:CC")
             [PyList [PyInt 2; PyStr "112233445566"; PyInt (-56); PyStr "0102"]]
             [Sample.record (-56) [x01; x02]]
             (PyList [PyInt 2; PyStr "112233445566"; PyInt (-56); PyStr "zz"]) []
             ValueError (scanner_init "gw" [])); try reflexivity.
    constructor; [reflexivity|constructor].
Defined.

(** ** The processing loop *)

Section LoopProperties.
Context `{Host}.

(** X13: processing an item writes the entry of the parsed address in
    each dictionary and no other entry; the queue, the log and the
    scanner's own source are as before. *)
Theorem other_addresses_untouched (data : QueueItem) (now : Z) (st : scanner)
    (dev : BLEDevice) (advertisement_data : AdvertisementData) :
  parse_data (device data) = Ok (dev, advertisement_data) ->
  (forall a, a <> address dev ->
     discovered_device_advertisement_datas (snd (async_on_advertisement data now st)) !! a =
       discovered_device_advertisement_datas st !! a /\
     discovered_device_timestamps (snd (async_on_advertisement data now st)) !! a =
       discovered_device_timestamps st !! a)
  /\ queue (snd (async_on_advertisement data now st)) = queue st
  /\ log (snd (async_on_advertisement data now st)) = log st
  /\ source (snd (async_on_advertisement data now st)) = source st.
Proof.
  intros Hparse. rewrite (async_on_advertisement_ok _ _ _ _ _ Hparse).
  cbn [snd discovered_device_advertisement_datas discovered_device_timestamps queue log
       source].
  split; [|auto]. intros a Ha. rewrite !lookup_insert_ne by congruence. auto.
Qed.

(** X14: an exception raised while an item is processed.  The item is
    off the queue in any case.  An [asyncio.TimeoutError] is taken for
    the timeout of the queue: the loop goes on as if nothing had
    happened.  Any other exception ends the loop task. *)
Theorem item_exception_outcome (s : system) (data : QueueItem) (rest : list QueueItem)
    (now : Z) (e : exn) :
  task s = Running ->
  queue (scanner_of s) = data :: rest ->
  parse_data (device data) = Raise e ->
  step s (Tick now) =
    {| scanner_of := set_queue rest (scanner_of s);
       subscribed := subscribed s;
       task := if isinstance_TimeoutError e then Running else Ended e |}.
Proof.
  intros Htask Hq Hparse. unfold step. rewrite Htask.
  rewrite (loop_iteration_raise _ _ _ _ _ Hq Hparse).
  destruct (isinstance_TimeoutError e); reflexivity.
Qed.

Lemma run_inputs_app (s : system) (inputs1 inputs2 : list input) :
  run_inputs s (inputs1 ++ inputs2) = run_inputs (run_inputs s inputs1) inputs2.
Proof. unfold run_inputs. apply fold_left_app. Qed.

Lemma run_ticks_all (items : list QueueItem) (parsed : list (BLEDevice * AdvertisementData)) :
  Forall2 (fun item p => parse_data (device item) = Ok p) items parsed ->
  forall (clock : list Z) (s : system) (rest : list QueueItem),
    length clock = length items ->
    task s = Running ->
    queue (scanner_of s) = items ++ rest ->
    task (run_inputs s (map Tick clock)) = Running /\
    subscribed (run_inputs s (map Tick clock)) = subscribed s /\
    queue (scanner_of (run_inputs s (map Tick clock))) = rest /\
    log (scanner_of (run_inputs s (map Tick clock))) = log (scanner_of s) /\
    dispatched (scanner_of (run_inputs s (map Tick clock))) =
      dispatched (scanner_of s) ++ events_of items parsed clock.
Proof.
  induction 1 as [|item [dev adv] items parsed Hitem _ IH]; intros clock s rest Hlen Htask Hq.
  - destruct clock; [|discriminate]. cbn. rewrite app_nil_r. auto.
  - destruct clock as [|now clock]; [discriminate|].
    cbn [map run_inputs fold_left]. fold (run_inputs (step s (Tick now)) (map Tick clock)).
    rewrite (step_tick_ok s now item (items ++ rest) dev adv Htask Hq Hitem).
    match goal with
    | |- context [run_inputs ?s1 (map Tick clock)] =>
        destruct (IH clock s1 rest) as (Ht & Hs & Hq' & Hl & Hd);
          [cbn in Hlen; lia|reflexivity|reflexivity|]
    end.
    rewrite Ht, Hs, Hq', Hl, Hd. cbn [scanner_of subscribed log dispatched events_of].
    rewrite <- app_assoc. auto.
Qed.

(** X15: the loop takes the items first in, first out: when the parser
    accepts the first items of the queue, as many turns of the loop
    dispatch one event per item, in the order of the queue and each
    with the clock reading of its turn, and leave the rest queued. *)
Theorem items_dispatched_in_order (s : system) (items rest : list QueueItem)
    (parsed : list (BLEDevice * AdvertisementData)) (clock : list Z) :
  Forall2 (fun item p => parse_data (device item) = Ok p) items parsed ->
  length clock = length items ->
  task s = Running ->
  queue (scanner_of s) = items ++ rest ->
  task (run_inputs s (map Tick clock)) = Running /\
  queue (scanner_of (run_inputs s (map Tick clock))) = rest /\
  dispatched (scanner_of (run_inputs s (map Tick clock))) =
    dispatched (scanner_of s) ++ events_of items parsed clock.
Proof.
  intros Hall Hlen Htask Hq.
  destruct (run_ticks_all items parsed Hall clock s rest Hlen Htask Hq)
    as (Ht & _ & Hq' & _ & Hd).
  auto.
Qed.

(** X16: the items before a failing one are not lost: they are
    dispatched, in order; then the loop ends with the exception of the
    failing item, and the items after it stay on the queue. *)
Theorem loop_stops_at_failing_item (s : system) (items rest : list QueueItem)
    (bad : QueueItem) (parsed : list (BLEDevice * AdvertisementData)) (clock : list Z)
    (now : Z) (e : exn) :
  Forall2 (fun item p => parse_data (device item) = Ok p) items parsed ->
  parse_data (device bad) = Raise e ->
  isinstance_TimeoutError e = false ->
  length clock = length items ->
  task s = Running ->
  queue (scanner_of s) = items ++ bad :: rest ->
  task (run_inputs s (map Tick (clock ++ [now]))) = Ended e /\
  queue (scanner_of (run_inputs s (map Tick (clock ++ [now])))) = rest /\
  dispatched (scanner_of (run_inputs s (map Tick (clock ++ [now])))) =
    dispatched (scanner_of s) ++ events_of items parsed clock.
Proof.
  intros Hall Hbad He Hlen Htask Hq.
  destruct (run_ticks_all items parsed Hall clock s (bad :: rest) Hlen Htask Hq)
    as (Ht & _ & Hq' & _ & Hd).
  rewrite map_app, run_inputs_app. cbn [map run_inputs fold_left].
  rewrite (step_tick_raise _ now bad rest e Ht Hq' Hbad He).
  cbn [task scanner_of set_queue queue dispatched]. auto.
Qed.

(** X17: turns of the loop on an empty queue change nothing, however
    many there are. *)
Theorem idle_turns_change_nothing (s : system) (clock : list Z) :
  queue (scanner_of s) = [] ->
  run_inputs s (map Tick clock) = s.
Proof.
  intros Hq. induction clock as [|now clock IH]; [reflexivity|].
  cbn [map run_inputs fold_left]. fold (run_inputs (step s (Tick now)) (map Tick clock)).
  assert (Hstep : step s (Tick now) = s).
  { unfold step. destruct s as [st sub t]. cbn in *. destruct t; [|reflexivity].
    rewrite (loop_iteration_empty now st Hq). reflexivity. }
  rewrite Hstep. exact IH.
Qed.

(** X18: once the loop task has ended nothing takes items off the
    queue: it keeps what it holds, and messages add to it. *)
Theorem ended_loop_never_consumes (inputs : list input) :
  forall (s : system) (e : exn),
    task s = Ended e ->
    exists items,
      queue (scanner_of (run_inputs s inputs)) = queue (scanner_of s) ++ items.
Proof.
  induction inputs as [|i inputs IH]; intros s e Htask.
  - exists []. cbn. rewrite app_nil_r. reflexivity.
  - cbn [run_inputs fold_left]. fold (run_inputs (step s i) inputs).
    destruct i as [payload|now|].
    + cbn [step]. destruct (subscribed s); [|apply (IH s e Htask)].
      destruct (async_message_received_grows payload (scanner_of s)) as ([items1 Hq1] & _).
      destruct (IH {| scanner_of := snd (async_message_received payload (scanner_of s));
                      subscribed := true; task := task s |} e Htask) as [items2 Hq2].
      exists (items1 ++ items2). rewrite Hq2. cbn [scanner_of].
      rewrite Hq1, app_assoc. reflexivity.
    + cbn [step]. rewrite Htask. apply (IH s e Htask).
    + apply (IH (step s Stop) e Htask).
Qed.

(** *** Invariants from the start of the scanner *)

Lemma last_event_for_snoc (a : string) (events : list BluetoothServiceInfoBleak)
    (info : BluetoothServiceInfoBleak) :
  last_event_for a (events ++ [info]) =
    if String.eqb (info_address info) a then Some info else last_event_for a events.
Proof. unfold last_event_for. rewrite rev_app_distr. reflexivity. Qed.

Lemma step_cache_matches_events (s : system) (i : input) :
  cache_matches_events (scanner_of s) -> cache_matches_events (scanner_of (step s i)).
Proof.
  intros Hinv. destruct i as [payload|now|]; cbn [step].
  - destruct (subscribed s); [|exact Hinv].
    destruct (async_message_received_frame payload (scanner_of s)) as (Ha & Ht & Hd).
    intros a. cbn [scanner_of]. rewrite Ha, Ht, Hd. apply Hinv.
  - destruct (task s); [|exact Hinv].
    destruct (loop_iteration_cases now (scanner_of s))
      as [-> | [(data & rest & dev & adv & _ & ->) | (data & rest & r & _ & ->)]].
    + exact Hinv.
    + intros a. cbn [scanner_of discovered_device_advertisement_datas
                     discovered_device_timestamps dispatched].
      rewrite last_event_for_snoc. cbn [service_info info_address].
      destruct (String.eqb_spec (address dev) a) as [<-|Hne].
      * rewrite !lookup_insert_eq. split; reflexivity.
      * rewrite !lookup_insert_ne by exact Hne. apply Hinv.
    + destruct r; exact Hinv.
  - exact Hinv.
Qed.

Lemma run_inputs_cache_matches_events (inputs : list input) :
  forall s : system,
    cache_matches_events (scanner_of s) ->
    cache_matches_events (scanner_of (run_inputs s inputs)).
Proof.
  induction inputs as [|i inputs IH]; intros s0 Hs0; [exact Hs0|].
  cbn [run_inputs fold_left]. fold (run_inputs (step s0 i) inputs).
  apply IH. apply step_cache_matches_events. exact Hs0.
Qed.

Lemma async_start_cache_matches_events (unique_id : option string)
    (queues : list QueueItem) (reg : registration) (s : system) :
  async_start unique_id queues = Ok (reg, s) -> cache_matches_events (scanner_of s).
Proof.
  unfold async_start. destruct unique_id as [uid|]; [|discriminate].
  intros [= _ <-] a. cbn. rewrite !lookup_empty. split; reflexivity.
Qed.

(** X19: from the start of the scanner on, whatever it receives, the
    two dictionaries are the record of the last event of each address:
    an address is cached exactly when an event has been dispatched for
    it, with the device, the advertisement and the time of the last
    such event. *)
Theorem cache_is_last_event (unique_id : option string) (queues : list QueueItem)
    (reg : registration) (s : system) (inputs : list input) :
  async_start unique_id queues = Ok (reg, s) ->
  cache_matches_events (scanner_of (run_inputs s inputs)).
Proof.
  intros Hstart. apply run_inputs_cache_matches_events.
  apply (async_start_cache_matches_events unique_id queues reg s Hstart).
Qed.

(** X20: the two dictionaries always have the same addresses. *)
Theorem dictionaries_same_addresses (unique_id : option string) (queues : list QueueItem)
    (reg : registration) (s : system) (inputs : list input) :
  async_start unique_id queues = Ok (reg, s) ->
  dom (discovered_device_advertisement_datas (scanner_of (run_inputs s inputs))) =
  dom (discovered_device_timestamps (scanner_of (run_inputs s inputs))).
Proof.
  intros Hstart.
  pose proof (run_inputs_cache_matches_events inputs s
                (async_start_cache_matches_events unique_id queues reg s Hstart)) as Hinv.
  apply set_eq. intros a. rewrite !elem_of_dom.
  destruct (Hinv a) as [-> ->]. rewrite !fmap_is_Some. reflexivity.
Qed.

End LoopProperties.

Lemma other_addresses_untouched_witness :
  (forall a, a <> address Sample.device_1 ->
     discovered_device_advertisement_datas
       (snd (async_on_advertisement (H := Sample.host) (Sample.item (-56) [x01; x02]) 10
               (scanner_init "gw" []))) !! a =
       discovered_device_advertisement_datas (scanner_init "gw" []) !! a /\
     discovered_device_timestamps
       (snd (async_on_advertisement (H := Sample.host) (Sample.item (-56) [x01; x02]) 10
               (scanner_init "gw" []))) !! a =
       discovered_device_timestamps (scanner_init "gw" []) !! a)
  /\ queue (snd (async_on_advertisement (H := Sample.host) (Sample.item (-56) [x01; x02]) 10
                   (scanner_init "gw" []))) = queue (scanner_init "gw" [])
  /\ log (snd (async_on_advertisement (H := Sample.host) (Sample.item (-56) [x01; x02]) 10
                 (scanner_init "gw" []))) = log (scanner_init "gw" [])
  /\ source (snd (async_on_advertisement (H := Sample.host) (Sample.item (-56) [x01; x02]) 10
                    (scanner_init "gw" []))) = source (scanner_init "gw" []).
Proof.
  apply (other_addresses_untouched (H := Sample.host) (Sample.item (-56) [x01; x02]) 10
           (scanner_init "gw" []) Sample.device_1 (Sample.advertisement (-56) None)).
  reflexivity.
Defined.

Lemma item_exception_outcome_witness :
  step (H := Sample.host)
    (Sample.started [Sample.item (-56) [x05; x09; x41]; Sample.item (-56) [x01; x02]])
    (Tick 10) =
    {| scanner_of :=
         set_queue [Sample.item (-56) [x01; x02]]
           (scanner_of
              (Sample.started
                 [Sample.item (-56) [x05; x09; x41]; Sample.item (-56) [x01; x02]]));
       subscribed :=
         subscribed
           (Sample.started [Sample.item (-56) [x05; x09; x41]; Sample.item (-56) [x01; x02]]);
       task := if isinstance_TimeoutError ParseError then Running else Ended ParseError |}.
Proof.
  apply (item_exception_outcome (H := Sample.host)
           (Sample.started [Sample.item (-56) [x05; x09; x41]; Sample.item (-56) [x01; x02]])
           (Sample.item (-56) [x05; x09; x41]) [Sample.item (-56) [x01; x02]] 10 ParseError);
    reflexivity.
Defined.

Lemma items_dispatched_in_order_witness :
  let s :=
    Sample.started
      [Sample.item (-56) [x01; x02]; Sample.item (-80) [x02; x09; x41];
       Sample.item (-56) [x05; x09; x41]] in
  task (run_inputs (H := Sample.host) s (map Tick [10; 20])) = Running /\
  queue (scanner_of (run_inputs (H := Sample.host) s (map Tick [10; 20]))) =
    [Sample.item (-56) [x05; x09; x41]] /\
  dispatched (scanner_of (run_inputs (H := Sample.host) s (map Tick [10; 20]))) =
    dispatched (scanner_of s) ++
      events_of (H := Sample.host)
        [Sample.item (-56) [x01; x02]; Sample.item (-80) [x02; x09; x41]]
        [(Sample.device_1, Sample.advertisement (-56) None);
         (Sample.device_1, Sample.advertisement (-80) (Some "A"))]
        [10; 20].
Proof.
  intros s.
  apply (items_dispatched_in_order (H := Sample.host) s
           [Sample.item (-56) [x01; x02]; Sample.item (-80) [x02; x09; x41]]
           [Sample.item (-56) [x05; x09; x41]]
           [(Sample.device_1, Sample.advertisement (-56) None);
            (Sample.device_1, Sample.advertisement (-80) (Some "A"))]
           [10; 20]).
  - repeat constructor.
  - reflexivity.
  - reflexivity.
  - reflexivity.
Defined.

Lemma loop_stops_at_failing_item_witness :
  let s :=
    Sample.started
      [Sample.item (-56) [x01; x02]; Sample.item (-56) [x05; x09; x41];
       Sample.item (-80) [x02; x09; x41]] in
  task (run_inputs (H := Sample.host) s (map Tick ([10] ++ [20]))) = Ended ParseError /\
  queue (scanner_of (run_inputs (H := Sample.host) s (map Tick ([10] ++ [20])))) =
    [Sample.item (-80) [x02; x09; x41]] /\
  dispatched (scanner_of (run_inputs (H := Sample.host) s (map Tick ([10] ++ [20])))) =
    dispatched (scanner_of s) ++
      events_of (H := Sample.host) [Sample.item (-56) [x01; x02]]
        [(Sample.device_1, Sample.advertisement (-56) None)] [10].
Proof.
  intros s.
  apply (loop_stops_at_failing_item (H := Sample.host) s
           [Sample.item (-56) [x01; x02]] [Sample.item (-80) [x02; x09; x41]]
           (Sample.item (-56) [x05; x09; x41])
           [(Sample.device_1, Sample.advertisement (-56) None)] [10] 20 ParseError).
  - repeat constructor.
  - reflexivity.
  - reflexivity.
  - reflexivity.
  - reflexivity.
  - reflexivity.
Defined.

Lemma idle_turns_change_nothing_witness :
  run_inputs (H := Sample.host) (Sample.started []) (map Tick [1; 2; 3]) = Sample.started [].
Proof.
  apply (idle_turns_change_nothing (H := Sample.host) (Sample.started []) [1; 2; 3]).
  reflexivity.
Defined.

Lemma ended_loop_never_consumes_witness :
  let s :=
    {| scanner_of := scanner_init "gw" [Sample.item (-80) [x02; x09; x41]];
       subscribed := true; task := Ended ParseError |} in
  exists items,
    queue (scanner_of
             (run_inputs (H := Sample.host) s [Message Sample.payload_binary; Tick 30])) =
    queue (scanner_of s) ++ items.
Proof.
  intros s.
  apply (ended_loop_never_consumes (H := Sample.host)
           [Message Sample.payload_binary; Tick 30] s ParseError).
  reflexivity.
Defined.

Lemma cache_is_last_event_witness :
  cache_matches_events
    (scanner_of
       (run_inputs (H := Sample.host) (Sample.started [])
          [Message Sample.payload_binary; Tick 10; Message Sample.payload_binary; Tick 20])).
Proof.
  apply (cache_is_last_event (H := Sample.host) (Some "gw"%string) []
           {| reg_source := "gw"; reg_connectable := false |}).
  reflexivity.
Defined.

Lemma dictionaries_same_addresses_witness :
  dom (discovered_device_advertisement_datas
         (scanner_of
            (run_inputs (H := Sample.host) (Sample.started [])
               [Message Sample.payload_binary; Tick 10]))) =
  dom (discovered_device_timestamps
         (scanner_of
            (run_inputs (H := Sample.host) (Sample.started [])
               [Message Sample.payload_binary; Tick 10]))).
Proof.
  apply (dictionaries_same_addresses (H := Sample.host) (Some "gw"%string) []
           {| reg_source := "gw"; reg_connectable := false |}).
  reflexivity.
Defined.

(** The last event of the address after two reports of the same device. *)
Example last_event_sample :
  info_time <$>
    last_event_for "112233445566"
      (dispatched
         (scanner_of
            (run_inputs (H := Sample.host) (Sample.started [])
               [Message Sample.payload_binary; Tick 10;
                Message Sample.payload_binary; Tick 20]))) = Some 20.
Proof. reflexivity. Qed.

(** ** [async_stop] *)

(** X21: [async_stop] calls every stored unsubscribe callable once, in
    order, and leaves an empty list: calling it again calls nothing,
    and calling it before anything is stored does nothing.  It returns
    [True] in all cases. *)
Theorem async_stop_calls_once (h : hass_data) :
  fst (async_stop h) = true
  /\ unsub_called (snd (async_stop h)) =
     unsub_called h ++ default [] (discovery_unsubscribe h)
  /\ snd (async_stop (snd (async_stop h))) = snd (async_stop h)
  /\ (discovery_unsubscribe h = None -> snd (async_stop h) = h).
Proof.
  unfold async_stop. destruct h as [[unsubs|] called]; cbn.
  - rewrite app_nil_r. repeat split. discriminate.
  - rewrite app_nil_r. repeat split.
Qed.

Lemma async_stop_calls_once_witness :
  fst (async_stop {| discovery_unsubscribe := None; unsub_called := [] |}) = true
  /\ snd (async_stop {| discovery_unsubscribe := None; unsub_called := [] |}) =
     {| discovery_unsubscribe := None; unsub_called := [] |}.
Proof.
  destruct (async_stop_calls_once {| discovery_unsubscribe := None; unsub_called := [] |})
    as (Hret & _ & _ & Hnone).
  split; [exact Hret|]. apply Hnone. reflexivity.
Defined.

Lemma subscribe_topics_stored (prefixes : list string) (discovery_prefix : string)
    (h : hass_data) :
  discovery_unsubscribe
    (fold_left (fun h0 p => subscribe_topics p h0) (prefixes ++ [discovery_prefix]) h) =
    Some (discovery_topics discovery_prefix)
  /\ unsub_called
       (fold_left (fun h0 p => subscribe_topics p h0) (prefixes ++ [discovery_prefix]) h) =
     unsub_called h.
Proof.
  rewrite fold_left_app. cbn. split; [reflexivity|].
  revert h. induction prefixes as [|p prefixes IH]; intros h; [reflexivity|].
  cbn [fold_left]. rewrite IH. reflexivity.
Qed.

(** X22: every subscription replaces the stored callables of the one
    before: after any number of scanners have subscribed, [async_stop]
    calls the callable of the last one only, and the topics of the
    others stay subscribed. *)
Theorem async_stop_reaches_last_subscription (prefixes : list string)
    (discovery_prefix : string) (h : hass_data) :
  unsub_called
    (snd (async_stop
            (fold_left (fun h0 p => subscribe_topics p h0)
               (prefixes ++ [discovery_prefix]) h))) =
    unsub_called h ++ [String.append discovery_prefix "/+"].
Proof.
  destruct (subscribe_topics_stored prefixes discovery_prefix h) as [Hstored Hcalled].
  unfold async_stop. rewrite Hstored. cbn [snd unsub_called]. rewrite Hcalled. reflexivity.
Qed.

(** ** From a message to its events *)

Section EndToEnd.
Context `{Host}.

(** X23: a report in the binary encoding, delivered to a subscribed
    scanner whose loop is running on an empty queue, and whose entries
    all normalise and parse, gives one event per entry after as many
    turns of the loop, in the order of the report, and the queue is
    empty again. *)
Theorem report_to_events (s : system) (payload : list byte) (data gateway : pyval)
    (devs records : list pyval) (parsed : list (BLEDevice * AdvertisementData))
    (clock : list Z) :
  subscribed s = true ->
  task s = Running ->
  queue (scanner_of s) = [] ->
  unpackb payload = Ok data ->
  py_get data "mac" PyNone = Ok gateway ->
  py_get data "devices" (PyList []) = Ok (PyList devs) ->
  Forall2 (fun dev r => normalize dev = Ok r) devs records ->
  Forall2 (fun r p => parse_data r = Ok p) records parsed ->
  length clock = length devs ->
  task (run_inputs s (Message payload :: map Tick clock)) = Running /\
  queue (scanner_of (run_inputs s (Message payload :: map Tick clock))) = [] /\
  dispatched (scanner_of (run_inputs s (Message payload :: map Tick clock))) =
    dispatched (scanner_of s) ++ events_of (queue_items gateway records) parsed clock.
Proof.
  intros Hsub Htask Hq Hbin Hmac Hdevices Hnorm Hparse Hlen.
  cbn [run_inputs fold_left]. fold (run_inputs (step s (Message payload)) (map Tick clock)).
  cbn [step]. rewrite Hsub.
  assert (Hmsg : async_message_received payload (scanner_of s) =
                 (Ok tt, set_queue (queue_items gateway records) (scanner_of s))).
  { unfold async_message_received. unfold_handler. rewrite Hbin.
    unfold async_process_discovery_data. unfold_handler.
    rewrite Hmac, Hdevices. cbn [py_iter].
    rewrite (put_devices_all gateway devs records Hnorm), Hq. reflexivity. }
  rewrite Hmsg. cbn [snd].
  assert (Hitems : Forall2 (fun item p => parse_data (device item) = Ok p)
                     (queue_items gateway records) parsed).
  { clear -Hparse. induction Hparse; cbn; constructor; auto. }
  destruct (run_ticks_all (queue_items gateway records) parsed Hitems clock
              {| scanner_of := set_queue (queue_items gateway records) (scanner_of s);
                 subscribed := true; task := task s |} [])
    as (Ht & _ & Hq' & _ & Hd).
  - unfold queue_items. rewrite length_map.
    rewrite <- (Forall2_length _ _ _ Hnorm). exact Hlen.
  - exact Htask.
  - cbn [scanner_of set_queue queue]. rewrite app_nil_r. reflexivity.
  - rewrite Ht, Hq', Hd. auto.
Qed.

(** X24: every event dispatched since the start of the scanner agrees
    with the device and the advertisement it carries: its address, RSSI,
    manufacturer data, service data and service UUIDs are theirs, and
    its name is the fallback chain over their names and the address. *)
Theorem events_agree_with_their_device (unique_id : option string)
    (queues : list QueueItem) (reg : registration) (s : system) (inputs : list input) :
  async_start unique_id queues = Ok (reg, s) ->
  Forall
    (fun info =>
       info_address info = address (info_device info) /\
       info_rssi info = rssi (info_advertisement info) /\
       info_manufacturer_data info = manufacturer_data (info_advertisement info) /\
       info_service_data info = service_data (info_advertisement info) /\
       info_service_uuids info = service_uuids (info_advertisement info) /\
       info_name info =
         or_else (local_name (info_advertisement info))
           (or_else (name (info_device info)) (info_address info)))
    (dispatched (scanner_of (run_inputs s inputs))).
Proof.
  unfold async_start. destruct unique_id as [uid|]; [|discriminate].
  intros [= _ <-].
  apply run_inputs_invariant.
  - intros data dev adv now. cbn. auto 10.
  - constructor.
Qed.

End EndToEnd.

Lemma report_to_events_witness :
  task (run_inputs (H := Sample.host) (Sample.started [])
          (Message Sample.payload_binary :: map Tick [10])) = Running /\
  queue (scanner_of (run_inputs (H := Sample.host) (Sample.started [])
                       (Message Sample.payload_binary :: map Tick [10]))) = [] /\
  dispatched (scanner_of (run_inputs (H := Sample.host) (Sample.started [])
                            (Message Sample.payload_binary :: map Tick [10]))) =
    dispatched (scanner_of (Sample.started [])) ++
      events_of (H := Sample.host)
        (queue_items (PyStr "AA:BB:CC") [Sample.record (-56) [x01; x02]])
        [(Sample.device_1, Sample.advertisement (-56) None)] [10].
Proof.
  apply (report_to_events (H := Sample.host) (Sample.started []) Sample.payload_binary
           (PyDict [("mac", PyStr "AA:BB:CC");
                    ("devices", PyList [PyBytes Sample.device_tuple])])
           (PyStr "AA:BB:CC") [PyBytes Sample.device_tuple]
           [Sample.record (-56) [x01; x02]]
           [(Sample.device_1, Sample.advertisement (-56) None)] [10]);
    try reflexivity; repeat constructor.
Defined.

Lemma events_agree_with_their_device_witness :
  Forall
    (fun info =>
       info_address info = address (info_device info) /\
       info_rssi info = rssi (info_advertisement info) /\
       info_manufacturer_data info = manufacturer_data (info_advertisement info) /\
       info_service_data info = service_data (info_advertisement info) /\
       info_service_uuids info = service_uuids (info_advertisement info) /\
       info_name info =
         or_else (local_name (info_advertisement info))
           (or_else (name (info_device info)) (info_address info)))
    (dispatched
       (scanner_of
          (run_inputs (H := Sample.host) (Sample.started [])
             [Message Sample.payload_binary; Tick 10]))).
Proof.
  apply (events_agree_with_their_device (H := Sample.host) (Some "gw"%string) []
           {| reg_source := "gw"; reg_connectable := false |}).
  reflexivity.
Defined.

(** ** The two decode paths *)



Section DecodePaths.
Context `{Host}.




End DecodePaths.



(** The source of an event for a gateway id that is an integer. *)
Example event_source_of_integer_gateway :
  info_source
    (service_info (H := Sample.host)
       {| gateway_id := PyInt 5; device := Sample.record (-56) [x01; x02] |}
       Sample.device_1 (Sample.advertisement (-56) None) 10) = "ab_gateway_5"%string.
Proof. reflexivity. Qed.
